(** * nebullvm.inference_learners.tvm: execution and persistence of a
      compiled Apache TVM module

    A shallow embedding of [src/nebullvm/inference_learners/tvm.py].  The
    Python methods are state-passing functions over a [world] holding what
    the methods mutate: the graph executors the learners refer to, the
    files written by [save], and the log of the calls made on the TVM
    runtime.  TVM, PyTorch and TensorFlow are external libraries: they
    appear as interfaces ([TVM], [Torch], [TensorFlow]) whose operations the
    methods compose exactly as the source does. *)

From Stdlib Require Import ZArith List Bool.
From stdpp Require Import base option list strings gmap.

Import ListNotations.
Open Scope Z_scope.
Open Scope string_scope.
Open Scope list_scope.

(** ** Exceptions and results *)

(** The first five are Python's own: the first four are raised in this
    file's code (tuple indexing, dict subscript, keyword clashes, a
    reference to an object that is gone) and [ValueError] is what a library
    may raise; the others are the errors of the collaborators, under the
    names the specification gives them.  The source defines no exception
    of its own and catches none. *)
Inductive exn : Type :=
| IndexError
| KeyError (key : string)
| TypeError (what : string)
| ReferenceError
| ValueError (what : string)
| UnsupportedDeviceKind
| UnknownInputName
| ExecutionFault
| DeviceResolutionError
| ArtifactNotFoundError
| MetadataCorruptError
| UnsupportedFrameworkError.

Inductive result (A : Type) : Type :=
| Ok (a : A)
| Raise (e : exn).
Arguments Ok {A} a.
Arguments Raise {A} e.

(** ** Data model *)

(** A raw array ([np.ndarray], [tvm.nd.NDArray]): a shape and the raw
    content of its elements. *)
Record ndarray : Type := NDArray { shape : list Z; data : list Z }.

(** Modelled from the spec: [ModelParams] is declared in [nebullvm.base];
    the descriptor holds the batch size and the ordered list of output
    shapes. *)
Record ModelParams : Type :=
  { batch_size : Z; output_sizes : list (list Z) }.

(** Modelled from the spec: the enumeration [DeepLearningFramework] is
    declared in [nebullvm.base]; this file uses its members [PYTORCH] and
    [TENSORFLOW].  [OtherFramework] stands for any other identity a caller
    may use as a key. *)
Inductive DeepLearningFramework : Type :=
| PYTORCH
| TENSORFLOW
| OtherFramework (name : string).

(** The two concrete learner classes of the file. *)
Inductive learner_class : Type :=
| PytorchApacheTVMInferenceLearner
| TensorflowApacheTVMInferenceLearner.

(** What [torch.Tensor.get_device] may return and [Tensor.to] accepts: the
    parameter of [_convert_device] is typed [Any]. *)
Inductive device_id : Type :=
| DeviceInt (index : Z)
| DeviceBool (b : bool)
| DeviceStr (name : string)
| DeviceNone.

(** ** The collaborators *)

(** The TVM runtime.  [Module] is [tvm.runtime.Module], [GraphModule] the
    state of a [tvm.contrib.graph_executor.GraphModule]. *)
Class TVM : Type :=
  { Module : Type;
    Device : Type;
    GraphModule : Type;
    (** [tvm.device(name, index)] *)
    tvm_device : string -> Z -> result Device;
    (** [GraphModule(lib["default"](dev))] *)
    tvm_graph_executor : Module -> Device -> result GraphModule;
    gm_set_input : GraphModule -> string -> ndarray -> result GraphModule;
    gm_run : GraphModule -> result GraphModule;
    (** the content [get_output(i, out)] copies into a buffer [out] of the
        given shape *)
    gm_get_output : GraphModule -> nat -> list Z -> result (list Z);
    (** the error [tvm.runtime.load_module(file)] raises when [file] does
        not exist *)
    tvm_load_module_missing : string -> exn;
    (** [TVM_FILENAMES["engine"]], a constant of [nebullvm.config] *)
    TVM_FILENAMES_engine : string }.

(** PyTorch, as far as [predict] uses it. *)
Class Torch : Type :=
  { Tensor : Type;
    get_device : Tensor -> device_id;
    cpu : Tensor -> Tensor;
    detach : Tensor -> Tensor;
    numpy : Tensor -> result ndarray;
    from_numpy : ndarray -> Tensor;
    to : Tensor -> device_id -> result Tensor }.

(** TensorFlow, as far as [predict] uses it. *)
Class TensorFlow : Type :=
  { tfTensor : Type;
    tf_numpy : tfTensor -> ndarray;
    convert_to_tensor : ndarray -> tfTensor }.

Declare Scope py_scope.
Delimit Scope py_scope with py.

Section World.
Context {tvm : TVM}.

(** ** The learner and the world it lives in *)

(** The dataclass [ApacheTVMInferenceLearner] (with the field
    [network_parameters] of [BaseInferenceLearner]).  The graph executor is
    a mutable object: the learner holds a reference to it. *)
Record ApacheTVMInferenceLearner : Type :=
  { cls : learner_class;
    network_parameters : ModelParams;
    graph_executor_module : nat;
    input_names : list string;
    lib : Module;
    target : string }.

(** Modelled from the spec: [LearnerMetadata] is declared in
    [nebullvm.inference_learners.base].  It is a key-value record holding
    [network_parameters], [input_names], [target] and any extra key-values
    of the caller; a field may be absent from a record that was read. *)
Record LearnerMetadata : Type :=
  { md_network_parameters : option ModelParams;
    md_input_names : option (list string);
    md_target : option string;
    md_extra : gmap string string }.

(** The calls made on the TVM runtime. *)
Inductive call : Type :=
| tvm_device_call (name : string) (index : Z)
| GraphModule_call (l : Module) (dev : Device)
| set_input_call (gm : nat) (name : string) (a : ndarray)
| run_call (gm : nat)
| nd_empty_call (sh : list Z)
| get_output_call (gm : nat) (i : nat) (sh : list Z)
| export_library_call (l : Module) (file : string)
| load_module_call (file : string).

Record world : Type :=
  { executors : list GraphModule;
    libraries : gmap string Module;
    metadata_files : gmap string LearnerMetadata;
    calls : list call }.

(** ** A state and exception monad *)

Definition M (A : Type) : Type := world -> result A * world.

Definition ret {A} (a : A) : M A := fun w => (Ok a, w).

Definition raise {A} (e : exn) : M A := fun w => (Raise e, w).

Definition bind {A B} (m : M A) (k : A -> M B) : M B :=
  fun w =>
    match m w with
    | (Ok a, w') => k a w'
    | (Raise e, w') => (Raise e, w')
    end.

Definition lift {A} (r : result A) : M A := fun w => (r, w).

End World.

Notation "x <- m ;; k" := (bind m (fun x => k))
  (at level 100, m at next level, right associativity) : py_scope.
Notation "m ;; k" := (bind m (fun _ => k))
  (at level 100, right associativity) : py_scope.

Open Scope py_scope.

Section Learner.
Context {tvm : TVM}.

Definition log (c : call) : M unit :=
  fun w =>
    (Ok tt,
     {| executors := executors w;
        libraries := libraries w;
        metadata_files := metadata_files w;
        calls := calls w ++ [c] |}).

Definition read_executor (gm : nat) : M GraphModule :=
  fun w =>
    match executors w !! gm with
    | Some g => (Ok g, w)
    | None => (Raise ReferenceError, w)
    end.

Definition write_executor (gm : nat) (g : GraphModule) : M unit :=
  fun w =>
    (Ok tt,
     {| executors := <[gm := g]> (executors w);
        libraries := libraries w;
        metadata_files := metadata_files w;
        calls := calls w |}).

Definition new_executor (g : GraphModule) : M nat :=
  fun w =>
    (Ok (length (executors w)),
     {| executors := executors w ++ [g];
        libraries := libraries w;
        metadata_files := metadata_files w;
        calls := calls w |}).

(** ** Calls on the TVM runtime *)

Definition device (name : string) (index : Z) : M Device :=
  log (tvm_device_call name index) ;;
  lift (tvm_device name index).

Definition new_GraphModule (l : Module) (dev : Device) : M nat :=
  log (GraphModule_call l dev) ;;
  g <- lift (tvm_graph_executor l dev) ;;
  new_executor g.

Definition set_input (gm : nat) (name : string) (a : ndarray) : M unit :=
  log (set_input_call gm name a) ;;
  g <- read_executor gm ;;
  g' <- lift (gm_set_input g name a) ;;
  write_executor gm g'.

Definition run (gm : nat) : M unit :=
  log (run_call gm) ;;
  g <- read_executor gm ;;
  g' <- lift (gm_run g) ;;
  write_executor gm g'.

(** [tvm.nd.empty(shape)]: a buffer of that shape; its content is not
    initialised and is never read. *)
Definition nd_empty (sh : list Z) : M ndarray :=
  log (nd_empty_call sh) ;;
  ret {| shape := sh; data := [] |}.

(** [get_output(i, out)] fills the buffer [out] and returns it. *)
Definition get_output (gm : nat) (i : nat) (out : ndarray) : M ndarray :=
  log (get_output_call gm i (shape out)) ;;
  g <- read_executor gm ;;
  d <- lift (gm_get_output g i (shape out)) ;;
  ret {| shape := shape out; data := d |}.

(** [NDArray.numpy()]: the same shape and content, as a numpy array. *)
Definition asnumpy (a : ndarray) : ndarray := a.

(** ** Generators *)

(** A generator is the list of its suspended items: an item is computed,
    with its effects, when the consumer asks for it. *)
Definition generator (A : Type) : Type := list (M A).

(** [(x for x in xs)] *)
Definition generator_of_list {A} (xs : list A) : generator A :=
  map ret xs.

(** [for name, x in zip(names, xs): body(name, x)].  [zip] asks [names]
    first and stops at the first exhausted iterator. *)
Fixpoint for_zip {A} (names : list string) (xs : generator A)
    (body : string -> A -> M unit) : M unit :=
  match names with
  | [] => ret tt
  | name :: names' =>
      match xs with
      | [] => ret tt
      | x :: xs' =>
          a <- x ;;
          body name a ;;
          for_zip names' xs' body
      end
  end.

(** [tuple(g)] *)
Fixpoint tuple {A} (g : generator A) : M (list A) :=
  match g with
  | [] => ret []
  | x :: g' =>
      a <- x ;;
      rest <- tuple g' ;;
      ret (a :: rest)
  end.

(** [enumerate(xs)] *)
Definition enumerate {A} (xs : list A) : list (nat * A) :=
  combine (seq 0 (length xs)) xs.

(** ** ApacheTVMInferenceLearner *)

(** The generator expression [tvm_outputs] of [_predict_array]: nothing of
    it runs before it is consumed. *)
Definition tvm_outputs (self : ApacheTVMInferenceLearner)
    : generator ndarray :=
  map (fun '(i, output_size) =>
         out <- nd_empty
                  (batch_size (network_parameters self) :: output_size) ;;
         o <- get_output (graph_executor_module self) i out ;;
         ret (asnumpy o))
      (enumerate (output_sizes (network_parameters self))).

Definition _predict_array (self : ApacheTVMInferenceLearner)
    (input_arrays : generator ndarray) : M (generator ndarray) :=
  for_zip (input_names self) input_arrays
    (fun name array => set_input (graph_executor_module self) name array) ;;
  run (graph_executor_module self) ;;
  ret (tvm_outputs self).

(** *** Persistence *)

(** A [pathlib.Path], as the string of its normal form: [save] and [load]
    are given the [Path] that line 62 and line 71 make of their argument,
    so that one directory has one name. *)
Abbreviation Path := string (only parsing).

(** [path / name] *)
Definition path_join (path : Path) (name : string) : Path :=
  (path ++ "/" ++ name)%string.

(** Modelled from the spec: [LearnerMetadata.from_model], of
    [nebullvm.inference_learners.base], builds the record from the model's
    [network_parameters] and the keyword arguments. *)
Definition LearnerMetadata_from_model (model : ApacheTVMInferenceLearner)
    (names : list string) (tgt : string) (kwargs : gmap string string)
    : LearnerMetadata :=
  {| md_network_parameters := Some (network_parameters model);
     md_input_names := Some names;
     md_target := Some tgt;
     md_extra := kwargs |}.

(** Modelled from the spec: [LearnerMetadata.save], of
    [nebullvm.inference_learners.base], writes the record to the directory
    [path].  The write is taken to succeed: a disk that is full or may not
    be written is outside the model. *)
Definition LearnerMetadata_save (metadata : LearnerMetadata) (path : Path)
    : M unit :=
  fun w =>
    (Ok tt,
     {| executors := executors w;
        libraries := libraries w;
        metadata_files := <[path := metadata]> (metadata_files w);
        calls := calls w |}).

(** Modelled from the spec: [LearnerMetadata.read(path).to_dict()], of
    [nebullvm.inference_learners.base], reads the record of the directory
    [path] back and fails with [ArtifactNotFoundError] when the file is
    missing. *)
Definition LearnerMetadata_read (path : Path) : M LearnerMetadata :=
  fun w =>
    match metadata_files w !! path with
    | Some metadata => (Ok metadata, w)
    | None => (Raise ArtifactNotFoundError, w)
    end.

(** [lib.export_library(file)]: the file holds the exported module.  As
    for the metadata, the write is taken to succeed. *)
Definition export_library (l : Module) (file : Path) : M unit :=
  log (export_library_call l file) ;;
  fun w =>
    (Ok tt,
     {| executors := executors w;
        libraries := <[file := l]> (libraries w);
        metadata_files := metadata_files w;
        calls := calls w |}).

(** [tvm.runtime.load_module(file)]: a file written by [export_library]
    loads back as the module it holds; for a file that does not exist the
    runtime raises its own error. *)
Definition load_module (file : Path) : M Module :=
  log (load_module_call file) ;;
  fun w =>
    match libraries w !! file with
    | Some l => (Ok l, w)
    | None => (Raise (tvm_load_module_missing file), w)
    end.

(** [d[key]] on the dictionary read from the metadata *)
Definition getitem {A} (key : string) (field : option A) : M A :=
  match field with
  | Some a => ret a
  | None => raise (KeyError key)
  end.

(** [str(s)] of a string *)
Definition str (s : string) : string := s.

(** Modelled from the spec: the constructor of the dataclass [ModelParams]
    of [nebullvm.base], called with the entries of the dictionary [d] as
    its keywords (line 73).  The record read back is typed, with every field present: a
    dictionary with a missing or a foreign key is outside the model. *)
Definition ModelParams_kwargs (d : ModelParams) : ModelParams :=
  {| batch_size := batch_size d; output_sizes := output_sizes d |}.

Definition from_runtime_module (c : learner_class)
    (params : ModelParams) (l : Module) (target_device : string)
    (names : list string) : M ApacheTVMInferenceLearner :=
  dev <- device (str target_device) 0 ;;
  gem <- new_GraphModule l dev ;;
  ret {| cls := c;
         network_parameters := params;
         graph_executor_module := gem;
         input_names := names;
         lib := l;
         target := target_device |}.

(** [save(self, path, **kwargs)].  Python refuses a call that gives a
    keyword twice: [kwargs] may hold neither [input_names] nor [target]. *)
Definition save (self : ApacheTVMInferenceLearner) (path : Path)
    (kwargs : gmap string string) : M unit :=
  if bool_decide ("input_names" ∈ dom kwargs ∨ "target" ∈ dom kwargs)
  then raise (TypeError "got multiple values for keyword argument")
  else
    let metadata :=
      LearnerMetadata_from_model self (input_names self) (target self)
        kwargs in
    LearnerMetadata_save metadata path ;;
    export_library (lib self) (path_join path TVM_FILENAMES_engine).

(** [load(cls, path, **kwargs)]; the keyword arguments are not used. *)
Definition load (c : learner_class) (path : Path)
    : M ApacheTVMInferenceLearner :=
  metadata <- LearnerMetadata_read path ;;
  d <- getitem "network_parameters" (md_network_parameters metadata) ;;
  let params := ModelParams_kwargs d in
  l <- load_module (path_join path TVM_FILENAMES_engine) ;;
  target_device <- getitem "target" (md_target metadata) ;;
  names <- getitem "input_names" (md_input_names metadata) ;;
  from_runtime_module c params l target_device names.

(** ** PytorchApacheTVMInferenceLearner *)

(** [isinstance(device, int)]: [bool] is a subclass of [int]. *)
Definition isinstance_int (d : device_id) : bool :=
  match d with
  | DeviceInt _ | DeviceBool _ => true
  | DeviceStr _ | DeviceNone => false
  end.

Definition _convert_device (d : device_id) : device_id :=
  if isinstance_int d then DeviceStr "cpu" else d.

(** [xs[0]] on a tuple *)
Definition tuple_first {A} (xs : list A) : M A :=
  match xs with
  | [] => raise IndexError
  | x :: _ => ret x
  end.

Definition Pytorch_predict {torch : Torch}
    (self : ApacheTVMInferenceLearner) (input_tensors : list Tensor)
    : M (list Tensor) :=
  t0 <- tuple_first input_tensors ;;
  let dev := _convert_device (get_device t0) in
  let input_arrays :=
    map (fun input_tensor => lift (numpy (detach (cpu input_tensor))))
        input_tensors in
  output_arrays <- _predict_array self input_arrays ;;
  tuple (map (fun next_output =>
                output_array <- next_output ;;
                lift (to (from_numpy output_array) dev))
             output_arrays).

(** ** TensorflowApacheTVMInferenceLearner *)

Definition Tensorflow_predict {tf : TensorFlow}
    (self : ApacheTVMInferenceLearner) (input_tensors : list tfTensor)
    : M (list tfTensor) :=
  let input_arrays :=
    map (fun input_tensor => ret (tf_numpy input_tensor)) input_tensors in
  output_arrays <- _predict_array self input_arrays ;;
  tuple (map (fun next_output =>
                output_array <- next_output ;;
                ret (convert_to_tensor output_array))
             output_arrays).

End Learner.

(** ** The dispatch table *)

#[global] Instance DeepLearningFramework_eq_dec :
  EqDecision DeepLearningFramework.
Proof. solve_decision. Defined.

#[global] Instance DeepLearningFramework_countable :
  Countable DeepLearningFramework.
Proof.
  refine (inj_countable'
            (fun f => match f with
                      | PYTORCH => inl true
                      | TENSORFLOW => inl false
                      | OtherFramework name => inr name
                      end)
            (fun x => match x with
                      | inl true => PYTORCH
                      | inl false => TENSORFLOW
                      | inr name => OtherFramework name
                      end) _).
  intros []; reflexivity.
Defined.

Definition TVM_INFERENCE_LEARNERS
    : gmap DeepLearningFramework learner_class :=
  <[PYTORCH := PytorchApacheTVMInferenceLearner]>
    (<[TENSORFLOW := TensorflowApacheTVMInferenceLearner]> ∅).

(** [repr(framework)], as a [KeyError] shows the key *)
Definition framework_repr (framework : DeepLearningFramework) : string :=
  match framework with
  | PYTORCH => "DeepLearningFramework.PYTORCH"
  | TENSORFLOW => "DeepLearningFramework.TENSORFLOW"
  | OtherFramework name => name
  end.

(** [TVM_INFERENCE_LEARNERS[framework]]: the table is a plain [dict], whose
    subscript raises [KeyError] for a key it does not hold. *)
Definition lookup_learner (framework : DeepLearningFramework)
    : result learner_class :=
  match TVM_INFERENCE_LEARNERS !! framework with
  | Some c => Ok c
  | None => Raise (KeyError (framework_repr framework))
  end.

(** ** What the runtime answers to a sequence of calls *)

(** The results of the calls a loop makes, up to the first failure. *)
Fixpoint mapM {A B} (f : A -> result B) (xs : list A) : result (list B) :=
  match xs with
  | [] => Ok []
  | x :: xs' =>
      match f x with
      | Raise e => Raise e
      | Ok b =>
          match mapM f xs' with
          | Raise e => Raise e
          | Ok bs => Ok (b :: bs)
          end
      end
  end.

Section Runtime.
Context {tvm : TVM}.

(** The executor after [set_input] was called for each binding in turn. *)
Fixpoint bind_inputs (g : GraphModule) (bindings : list (string * ndarray))
    : result GraphModule :=
  match bindings with
  | [] => Ok g
  | (name, a) :: bindings' =>
      match gm_set_input g name a with
      | Raise e => Raise e
      | Ok g' => bind_inputs g' bindings'
      end
  end.

(** The array a buffer of shape [(b, *size)] holds after
    [get_output(i, buffer)] on the executor [g]. *)
Definition fetch_output (g : GraphModule) (b : Z) (entry : nat * list Z)
    : result ndarray :=
  match gm_get_output g entry.1 (b :: entry.2) with
  | Raise e => Raise e
  | Ok d => Ok {| shape := b :: entry.2; data := d |}
  end.

(** A converted output: [post] is the conversion of the host framework. *)
Definition converted_output {T} (post : ndarray -> result T) (g : GraphModule)
    (b : Z) (entry : nat * list Z) : result T :=
  match fetch_output g b entry with
  | Raise e => Raise e
  | Ok o => post o
  end.

(** The executor after the loop over [zip(names, xs)]: an item of the
    generator is converted by [f] when the loop asks for it, and the first
    failure ends the loop. *)
Fixpoint feed {X} (f : X -> result ndarray) (g : GraphModule)
    (names : list string) (xs : list X) : result GraphModule :=
  match names, xs with
  | name :: names', x :: xs' =>
      match f x with
      | Raise e => Raise e
      | Ok a =>
          match gm_set_input g name a with
          | Raise e => Raise e
          | Ok g' => feed f g' names' xs'
          end
      end
  | _, _ => Ok g
  end.

(** What [predict] returns, as a function of the executor's state alone:
    [f] converts an input, [post] an output. *)
Definition predict_result {X T} (f : X -> result ndarray)
    (post : ndarray -> result T) (names : list string) (params : ModelParams)
    (g : GraphModule) (xs : list X) : result (list T) :=
  match feed f g names xs with
  | Raise e => Raise e
  | Ok g1 =>
      match gm_run g1 with
      | Raise e => Raise e
      | Ok g2 =>
          mapM (converted_output post g2 (batch_size params))
               (enumerate (output_sizes params))
      end
  end.

(** The calls in a log, by kind. *)
Definition set_input_calls (gm : nat) (bindings : list (string * ndarray))
    : list call :=
  map (fun binding => set_input_call gm binding.1 binding.2) bindings.

Definition output_calls (gm : nat) (b : Z) (entries : list (nat * list Z))
    : list call :=
  flat_map (fun entry =>
              [nd_empty_call (b :: entry.2);
               get_output_call gm entry.1 (b :: entry.2)])
           entries.

Definition is_set_input_call (c : call) : bool :=
  match c with set_input_call _ _ _ => true | _ => false end.

Definition is_run_call (c : call) : bool :=
  match c with run_call _ => true | _ => false end.

Definition is_tvm_device_call (c : call) : bool :=
  match c with tvm_device_call _ _ => true | _ => false end.

Definition is_nd_empty_call (c : call) : bool :=
  match c with nd_empty_call _ => true | _ => false end.

(** The world after a method replaced the executors by [ex] and made the
    calls [cs]. *)
Definition update_world (ex : list GraphModule) (cs : list call) (w : world)
    : world :=
  {| executors := ex;
     libraries := libraries w;
     metadata_files := metadata_files w;
     calls := calls w ++ cs |}.

End Runtime.

(** ** A small runtime and small frameworks to run the methods on *)

(** A compiled network that adds the elements of all its bound inputs to
    the constant its library holds and fills its single output with the
    sum. *)
Record sum_executor : Type :=
  { sum_lib : Z;
    sum_inputs : list (string * ndarray);
    sum_value : Z }.

Definition sum_list (zs : list Z) : Z := foldr Z.add 0 zs.

Definition sum_device (name : string) (index : Z) : result (string * Z) :=
  if bool_decide (name ∈ ["llvm"; "cuda"]) then Ok (name, index)
  else Raise DeviceResolutionError.

Definition sum_set_input (g : sum_executor) (name : string) (a : ndarray)
    : result sum_executor :=
  if bool_decide (name = "") then Raise UnknownInputName
  else
    Ok {| sum_lib := sum_lib g;
          sum_inputs :=
            (name, a)
            :: filter (fun binding => binding.1 ≠ name) (sum_inputs g);
          sum_value := sum_value g |}.

Definition sum_run (g : sum_executor) : result sum_executor :=
  Ok {| sum_lib := sum_lib g;
        sum_inputs := sum_inputs g;
        sum_value :=
          sum_lib g
          + sum_list (map (fun binding => sum_list (data binding.2))
                          (sum_inputs g)) |}.

Definition sum_get_output (g : sum_executor) (i : nat) (sh : list Z)
    : result (list Z) :=
  match i with
  | O => Ok (replicate (Z.to_nat (foldr Z.mul 1 sh)) (sum_value g))
  | S _ => Raise ExecutionFault
  end.

Definition sum_tvm : TVM :=
  {| Module := Z;
     Device := string * Z;
     GraphModule := sum_executor;
     tvm_device := sum_device;
     tvm_graph_executor :=
       fun l _ => Ok {| sum_lib := l; sum_inputs := []; sum_value := 0 |};
     gm_set_input := sum_set_input;
     gm_run := sum_run;
     gm_get_output := sum_get_output;
     tvm_load_module_missing := fun _ => ValueError "cannot find file";
     TVM_FILENAMES_engine := "compiled_lib.so" |}.

(** Tensors that know the index of their device ([-1] on the host) and
    whether they track gradients. *)
Record plain_tensor : Type :=
  { pt_array : ndarray; pt_device : Z; pt_requires_grad : bool }.

Definition plain_numpy (t : plain_tensor) : result ndarray :=
  if pt_requires_grad t then Raise (TypeError "tensor requires grad")
  else if bool_decide (pt_device t = -1) then Ok (pt_array t)
  else Raise (TypeError "tensor is not on the host").

Definition plain_to (t : plain_tensor) (d : device_id) : result plain_tensor :=
  let bound index :=
    {| pt_array := pt_array t;
       pt_device := index;
       pt_requires_grad := pt_requires_grad t |} in
  match d with
  | DeviceInt index => Ok (bound index)
  | DeviceStr "cpu" => Ok (bound (-1))
  | DeviceStr "cuda" => Ok (bound 0)
  | _ => Raise UnsupportedDeviceKind
  end.

Definition plain_torch : Torch :=
  {| Tensor := plain_tensor;
     get_device := fun t => DeviceInt (pt_device t);
     cpu := fun t =>
       {| pt_array := pt_array t;
          pt_device := -1;
          pt_requires_grad := pt_requires_grad t |};
     detach := fun t =>
       {| pt_array := pt_array t;
          pt_device := pt_device t;
          pt_requires_grad := false |};
     numpy := plain_numpy;
     from_numpy := fun a =>
       {| pt_array := a; pt_device := -1; pt_requires_grad := false |};
     to := plain_to |}.

(** The same tensors, in a framework that names the device of a tensor
    instead of giving its index. *)
Definition named_torch : Torch :=
  {| Tensor := plain_tensor;
     get_device := fun t =>
       if bool_decide (pt_device t = -1) then DeviceStr "cpu"
       else DeviceStr "cuda";
     cpu := cpu (Torch := plain_torch);
     detach := detach (Torch := plain_torch);
     numpy := plain_numpy;
     from_numpy := from_numpy (Torch := plain_torch);
     to := plain_to |}.

(** Tensors that are their raw array. *)
Definition plain_tensorflow : TensorFlow :=
  {| tfTensor := ndarray;
     tf_numpy := fun t => t;
     convert_to_tensor := fun a => a |}.

Definition empty_world : @world sum_tvm :=
  {| executors := []; libraries := ∅; metadata_files := ∅; calls := [] |}.

(** ** A learner, a world and tensors on that runtime *)

Definition small_params : ModelParams :=
  {| batch_size := 2; output_sizes := [[10]] |}.

Definition small_learner : @ApacheTVMInferenceLearner sum_tvm :=
  {| cls := PytorchApacheTVMInferenceLearner;
     network_parameters := small_params;
     graph_executor_module := 0;
     input_names := ["x"; "y"];
     lib := (100 : @Module sum_tvm);
     target := "llvm" |}.

(** The executor [from_runtime_module] builds for the library [100]. *)
Definition fresh_executor : @GraphModule sum_tvm :=
  {| sum_lib := 100; sum_inputs := []; sum_value := 0 |}.

Definition small_world : @world sum_tvm :=
  {| executors := [fresh_executor];
     libraries := ∅;
     metadata_files := ∅;
     calls := [] |}.

Definition array_x : ndarray := {| shape := [1]; data := [5] |}.
Definition array_y : ndarray := {| shape := [1]; data := [7] |}.

(** A tensor on an accelerator that tracks gradients, and one on the
    host. *)
Definition tensor_x : plain_tensor :=
  {| pt_array := array_x; pt_device := 0; pt_requires_grad := true |}.
Definition tensor_y : plain_tensor :=
  {| pt_array := array_y; pt_device := -1; pt_requires_grad := false |}.

(** The output of the network when its value is [v]. *)
Definition filled (v : Z) : ndarray :=
  {| shape := [2; 10]; data := replicate 20 v |}.

Definition on_host (a : ndarray) : plain_tensor :=
  {| pt_array := a; pt_device := -1; pt_requires_grad := false |}.

(** A learner is built and used on two tensors, saved and loaded; then the
    original and the loaded learner are both given the first tensor
    alone. *)
Definition stale_binding_scenario
    : @M sum_tvm
        (@ApacheTVMInferenceLearner sum_tvm * @ApacheTVMInferenceLearner sum_tvm
         * list plain_tensor * list plain_tensor) :=
  self <- from_runtime_module (tvm := sum_tvm)
            PytorchApacheTVMInferenceLearner small_params
            (100 : @Module sum_tvm) "llvm" ["x"; "y"] ;;
  Pytorch_predict (torch := plain_torch) self [tensor_x; tensor_y] ;;
  save self "model" ∅ ;;
  loaded <- load PytorchApacheTVMInferenceLearner "model" ;;
  original_output <- Pytorch_predict (torch := plain_torch) self [tensor_x] ;;
  loaded_output <- Pytorch_predict (torch := plain_torch) loaded [tensor_x] ;;
  ret (self, loaded, original_output, loaded_output).

(** A directory whose metadata record has lost [network_parameters] and
    that holds no engine file. *)
Definition no_engine_world : @world sum_tvm :=
  {| executors := [];
     libraries := ∅;
     metadata_files :=
       {[ "model" := {| md_network_parameters := None;
                        md_input_names := Some ["x"; "y"];
                        md_target := Some "llvm";
                        md_extra := ∅ |} ]};
     calls := [] |}.


(** ** What a method may touch *)

Section Frames.
Context {tvm : TVM}.

(** A call on the executor [gm]: [set_input] or [run]. *)
Definition is_executor_call (gm : nat) (c : call) : bool :=
  match c with
  | set_input_call gm' _ _ | run_call gm' => Nat.eqb gm' gm
  | _ => false
  end.

(** From [w] to [w'], only calls on the executor [gm] were made, and nothing
    but that executor has changed. *)
Definition touches_only (gm : nat) (w w' : world) : Prop :=
  exists cs,
    calls w' = calls w ++ cs
    /\ Forall (fun c => is_executor_call gm c = true) cs
    /\ libraries w' = libraries w
    /\ metadata_files w' = metadata_files w
    /\ length (executors w') = length (executors w)
    /\ forall i, i <> gm -> executors w' !! i = executors w !! i.

End Frames.

(** ** Runtimes whose executors are determined by their inputs *)

(** What makes the outputs of an executor depend only on its library and on
    the arrays bound to its inputs.  [same_up_to stale g g'] relates two
    executors that answer alike except for what may be bound to the names
    in [stale]; [same_outputs] relates two executors after a run that
    yield the same outputs.  Binding a name on both sides removes it from
    the stale names, binding it on one side adds it, and a run of one side
    changes no binding. *)
Record InputDetermined {tvm : TVM} : Type :=
  { same_up_to : gset string -> GraphModule -> GraphModule -> Prop;
    same_outputs : GraphModule -> GraphModule -> Prop;
    same_up_to_mono :
      forall stale stale' g g',
        stale ⊆ stale' -> same_up_to stale g g' -> same_up_to stale' g g';
    same_up_to_set_input :
      forall stale g g' name a,
        same_up_to stale g g' ->
        match gm_set_input g name a, gm_set_input g' name a with
        | Ok g1, Ok g1' => same_up_to (stale ∖ {[name]}) g1 g1'
        | Raise e, Raise e' => e = e'
        | _, _ => False
        end;
    same_up_to_run :
      forall g g',
        same_up_to ∅ g g' ->
        match gm_run g, gm_run g' with
        | Ok g1, Ok g1' => same_outputs g1 g1'
        | Raise e, Raise e' => e = e'
        | _, _ => False
        end;
    same_outputs_get_output :
      forall g g' i sh,
        same_outputs g g' -> gm_get_output g i sh = gm_get_output g' i sh;
    same_up_to_after_set_input :
      forall stale g g' name a g1,
        same_up_to stale g g' ->
        gm_set_input g name a = Ok g1 ->
        same_up_to (stale ∪ {[name]}) g1 g';
    same_up_to_after_run :
      forall stale g g' g1,
        same_up_to stale g g' -> gm_run g = Ok g1 -> same_up_to stale g1 g' }.
Arguments InputDetermined tvm : clear implicits.

(** On [sum_tvm]: the same library and, outside the stale names, the same
    bindings, each name being bound once. *)
Definition sum_same_up_to (stale : gset string) (g g' : sum_executor)
    : Prop :=
  sum_lib g = sum_lib g'
  /\ NoDup (sum_inputs g).*1
  /\ NoDup (sum_inputs g').*1
  /\ forall name a,
       name ∉ stale ->
       ((name, a) ∈ sum_inputs g <-> (name, a) ∈ sum_inputs g').

Definition sum_same_outputs (g g' : sum_executor) : Prop :=
  sum_value g = sum_value g'.

(** A runtime like [sum_tvm] that has no accelerator, so that it refuses
    to instantiate a library on [cuda], and whose network cannot run
    before an input is bound. *)
Definition strict_tvm : TVM :=
  {| Module := Z;
     Device := string * Z;
     GraphModule := sum_executor;
     tvm_device := sum_device;
     tvm_graph_executor :=
       fun l dev =>
         if bool_decide (dev.1 = "cuda") then Raise ExecutionFault
         else Ok {| sum_lib := l; sum_inputs := []; sum_value := 0 |};
     gm_set_input := sum_set_input;
     gm_run :=
       fun g =>
         match sum_inputs g with
         | [] => Raise ExecutionFault
         | _ :: _ => sum_run g
         end;
     gm_get_output := sum_get_output;
     tvm_load_module_missing := fun _ => ValueError "cannot find file";
     TVM_FILENAMES_engine := "compiled_lib.so" |}.

(** Tensors of which some have an element type numpy does not know. *)
Record typed_tensor : Type :=
  { tt_tensor : plain_tensor; tt_numpy_dtype : bool }.

Definition typed_torch : Torch :=
  {| Tensor := typed_tensor;
     get_device := fun t => DeviceInt (pt_device (tt_tensor t));
     cpu := fun t =>
       {| tt_tensor := cpu (Torch := plain_torch) (tt_tensor t);
          tt_numpy_dtype := tt_numpy_dtype t |};
     detach := fun t =>
       {| tt_tensor := detach (Torch := plain_torch) (tt_tensor t);
          tt_numpy_dtype := tt_numpy_dtype t |};
     numpy := fun t =>
       if tt_numpy_dtype t then plain_numpy (tt_tensor t)
       else Raise (TypeError "unsupported element type");
     from_numpy := fun a =>
       {| tt_tensor := on_host a; tt_numpy_dtype := true |};
     to := fun t d =>
       match plain_to (tt_tensor t) d with
       | Ok t' => Ok {| tt_tensor := t'; tt_numpy_dtype := tt_numpy_dtype t |}
       | Raise e => Raise e
       end |}.

(** A learner one of whose input names the runtime does not know. *)
Definition misnamed_learner : @ApacheTVMInferenceLearner sum_tvm :=
  {| cls := PytorchApacheTVMInferenceLearner;
     network_parameters := small_params;
     graph_executor_module := 0;
     input_names := ["x"; ""; "z"];
     lib := (100 : @Module sum_tvm);
     target := "llvm" |}.

(** A learner that expects a second output the network does not have. *)
Definition two_output_learner : @ApacheTVMInferenceLearner sum_tvm :=
  {| cls := PytorchApacheTVMInferenceLearner;
     network_parameters := {| batch_size := 2; output_sizes := [[10]; [3]] |};
     graph_executor_module := 0;
     input_names := ["x"; "y"];
     lib := (100 : @Module sum_tvm);
     target := "llvm" |}.

(** [small_learner] and [small_world] on the runtime [strict_tvm]. *)
Definition strict_learner : @ApacheTVMInferenceLearner strict_tvm :=
  {| cls := TensorflowApacheTVMInferenceLearner;
     network_parameters := small_params;
     graph_executor_module := 0;
     input_names := ["x"; "y"];
     lib := (100 : @Module strict_tvm);
     target := "llvm" |}.

Definition strict_world : @world strict_tvm :=
  {| executors := [fresh_executor : @GraphModule strict_tvm];
     libraries := ∅;
     metadata_files := ∅;
     calls := [] |}.

(** The executor of [small_learner] after the given bindings (the latest
    first) and a run that gave [v]. *)
Definition bound_executor (bindings : list (string * ndarray)) (v : Z)
    : @GraphModule sum_tvm :=
  {| sum_lib := 100; sum_inputs := bindings; sum_value := v |}.

(** Directories of a world without executors: the metadata record and,
    when there is one, the engine file of the directory [model]. *)
Definition stored_world (metadata : option LearnerMetadata)
    (engine : option Z) : @world sum_tvm :=
  {| executors := [];
     libraries :=
       match engine with
       | Some l =>
           {[ path_join "model" (TVM_FILENAMES_engine (TVM := sum_tvm))
              := (l : @Module sum_tvm) ]}
       | None => ∅
       end;
     metadata_files :=
       match metadata with
       | Some md => {[ "model" := md ]}
       | None => ∅
       end;
     calls := [] |}.

(** A second learner, on the executor after that of [small_learner],
    and the world in which both were just built. *)
Definition second_learner : @ApacheTVMInferenceLearner sum_tvm :=
  {| cls := TensorflowApacheTVMInferenceLearner;
     network_parameters := small_params;
     graph_executor_module := 1;
     input_names := ["x"];
     lib := (7 : @Module sum_tvm);
     target := "cuda" |}.

Definition second_executor : @GraphModule sum_tvm :=
  {| sum_lib := 7; sum_inputs := []; sum_value := 0 |}.

Definition two_learner_world : @world sum_tvm :=
  {| executors := [fresh_executor; second_executor];
     libraries := ∅;
     metadata_files := ∅;
     calls :=
       [tvm_device_call "llvm" 0;
        GraphModule_call (100 : @Module sum_tvm) (("llvm", 0) : @Device sum_tvm);
        tvm_device_call "cuda" 0;
        GraphModule_call (7 : @Module sum_tvm) (("cuda", 0) : @Device sum_tvm)] |}.

(** Metadata records that lack a field. *)
Definition metadata_without_target : LearnerMetadata :=
  {| md_network_parameters := Some small_params;
     md_input_names := Some ["x"; "y"];
     md_target := None;
     md_extra := ∅ |}.

Definition metadata_without_input_names : LearnerMetadata :=
  {| md_network_parameters := Some small_params;
     md_input_names := None;
     md_target := Some "llvm";
     md_extra := ∅ |}.

(** A tensor numpy can convert and one it cannot. *)
Definition typed_x : typed_tensor :=
  {| tt_tensor := tensor_x; tt_numpy_dtype := true |}.
Definition typed_y : typed_tensor :=
  {| tt_tensor := tensor_y; tt_numpy_dtype := false |}.

(** [small_learner]'s executor after a call on [array_x] and [array_y],
    and the world that holds it. *)
Definition used_executor : @GraphModule sum_tvm :=
  bound_executor [("y", array_y); ("x", array_x)] 112.

Definition used_world : @world sum_tvm :=
  {| executors := [used_executor];
     libraries := ∅;
     metadata_files := ∅;
     calls := [] |}.

Definition array_z : ndarray := {| shape := [1]; data := [11] |}.
Definition tensor_z : plain_tensor :=
  {| pt_array := array_z; pt_device := 0; pt_requires_grad := false |}.

(** * Properties *)

(** ** Steps of the monad *)

Section Steps.
Context {tvm : TVM}.

Lemma bind_ok {A B} (m : M A) (k : A -> M B) a w w' :
  m w = (Ok a, w') -> bind m k w = k a w'.
Proof. intros Hm. unfold bind. rewrite Hm. reflexivity. Qed.

Lemma update_world_same (w : world) ex :
  ex = executors w -> update_world ex [] w = w.
Proof.
  intros ->. destruct w as [ex libs mds cs]. unfold update_world. simpl.
  rewrite app_nil_r. reflexivity.
Qed.

Lemma update_world_twice (w : world) ex1 ex2 cs1 cs2 :
  update_world ex2 cs2 (update_world ex1 cs1 w)
  = update_world ex2 (cs1 ++ cs2) w.
Proof. unfold update_world. simpl. rewrite app_assoc. reflexivity. Qed.

Lemma set_input_ok gm name a g g' (w : world) :
  executors w !! gm = Some g ->
  gm_set_input g name a = Ok g' ->
  set_input gm name a w
  = (Ok tt,
     update_world (<[gm := g']> (executors w)) [set_input_call gm name a] w).
Proof.
  intros Hg Hset. unfold set_input, log, read_executor, lift, write_executor.
  unfold bind. simpl. rewrite Hg, Hset. reflexivity.
Qed.

Lemma run_ok gm g g' (w : world) :
  executors w !! gm = Some g ->
  gm_run g = Ok g' ->
  run gm w = (Ok tt, update_world (<[gm := g']> (executors w)) [run_call gm] w).
Proof.
  intros Hg Hrun. unfold run, log, read_executor, lift, write_executor.
  unfold bind. simpl. rewrite Hg, Hrun. reflexivity.
Qed.

Lemma output_step gm g b (entry : nat * list Z) (w : world) :
  executors w !! gm = Some g ->
  (out <- nd_empty (b :: entry.2) ;;
   o <- get_output gm entry.1 out ;;
   ret (asnumpy o)) w
  = (fetch_output g b entry,
     update_world (executors w) (output_calls gm b [entry]) w).
Proof.
  intros Hg.
  unfold fetch_output, nd_empty, get_output, log, read_executor, lift, ret,
    asnumpy, update_world, output_calls.
  unfold bind. simpl. rewrite Hg.
  destruct (gm_get_output g entry.1 (b :: entry.2)) as [d|e];
    simpl; rewrite <- app_assoc; reflexivity.
Qed.

Lemma converted_output_step {T} (post : ndarray -> result T) gm g b
    (entry : nat * list Z) (w : world) :
  executors w !! gm = Some g ->
  (output_array <-
     (out <- nd_empty (b :: entry.2) ;;
      o <- get_output gm entry.1 out ;;
      ret (asnumpy o)) ;;
   lift (post output_array)) w
  = (converted_output post g b entry,
     update_world (executors w) (output_calls gm b [entry]) w).
Proof.
  intros Hg. unfold bind at 1. rewrite (output_step gm g b entry w Hg).
  unfold converted_output, lift.
  destruct (fetch_output g b entry); reflexivity.
Qed.

(** *** Results of [mapM] *)

Lemma mapM_length {A B} (f : A -> result B) xs ys :
  mapM f xs = Ok ys -> length ys = length xs.
Proof.
  revert ys. induction xs as [|x xs IH]; intros ys H; simpl in H.
  - injection H as <-. reflexivity.
  - destruct (f x); [|discriminate].
    destruct (mapM f xs); [|discriminate].
    injection H as <-. simpl. f_equal. apply IH. reflexivity.
Qed.

Lemma mapM_Forall2 {A B} (f : A -> result B) xs ys :
  mapM f xs = Ok ys -> Forall2 (fun x y => f x = Ok y) xs ys.
Proof.
  revert ys. induction xs as [|x xs IH]; intros ys H; simpl in H.
  - injection H as <-. constructor.
  - destruct (f x) eqn:Hx; [|discriminate].
    destruct (mapM f xs); [|discriminate].
    injection H as <-. constructor; [assumption|]. apply IH. reflexivity.
Qed.

Lemma mapM_pure {A} (xs : list A) : mapM Ok xs = Ok xs.
Proof. induction xs as [|x xs IH]; simpl; [|rewrite IH]; reflexivity. Qed.

(** *** The loop over [zip(self.input_names, input_arrays)] *)

Lemma for_zip_set_input {X} (f : X -> result ndarray) gm :
  forall names xs arrays g g1 (w : world),
    executors w !! gm = Some g ->
    mapM f (take (length names) xs) = Ok arrays ->
    bind_inputs g (combine names arrays) = Ok g1 ->
    for_zip names (map (fun x => lift (f x)) xs) (set_input gm) w
    = (Ok tt,
       update_world (<[gm := g1]> (executors w))
         (set_input_calls gm (combine names arrays)) w).
Proof.
  induction names as [|name names IH]; intros xs arrays g g1 w Hg Hxs Hbind.
  - simpl in *. injection Hbind as <-. unfold ret.
    rewrite update_world_same; [reflexivity|].
    apply list_insert_id. assumption.
  - destruct xs as [|x xs]; simpl in Hxs.
    + injection Hxs as <-. simpl in *. injection Hbind as <-. unfold ret.
      rewrite update_world_same; [reflexivity|].
      apply list_insert_id. assumption.
    + destruct (f x) as [a|] eqn:Hx; [|discriminate].
      destruct (mapM f (take (length names) xs)) as [arrays'|] eqn:Hrest;
        [|discriminate].
      injection Hxs as <-. simpl in Hbind.
      destruct (gm_set_input g name a) as [g'|] eqn:Hset; [|discriminate].
      simpl.
      rewrite (bind_ok _ _ a w w) by (unfold lift; rewrite Hx; reflexivity).
      rewrite (bind_ok _ _ tt _ _ (set_input_ok _ _ _ _ _ _ Hg Hset)).
      assert (Hlt : (gm < length (executors w))%nat)
        by (eapply lookup_lt_Some; eassumption).
      rewrite (IH xs arrays' g' g1); [| |assumption|assumption].
      * rewrite update_world_twice. simpl.
        rewrite list_insert_insert_eq. reflexivity.
      * simpl. apply list_lookup_insert_eq. assumption.
Qed.

(** *** Consuming a generator whose items do not touch the executors *)

Lemma tuple_map_steps {E T} (k : E -> M T) (r : E -> result T)
    (cs : E -> list call) (P : world -> Prop) :
  (forall e w, P w -> k e w = (r e, update_world (executors w) (cs e) w)) ->
  (forall w l, P w -> P (update_world (executors w) l w)) ->
  forall entries ts w,
    P w ->
    mapM r entries = Ok ts ->
    tuple (map k entries) w
    = (Ok ts, update_world (executors w) (flat_map cs entries) w).
Proof.
  intros Hk HP. induction entries as [|e entries IH]; intros ts w Hw Hts.
  - simpl in *. injection Hts as <-. unfold ret.
    rewrite update_world_same; reflexivity.
  - simpl in Hts. destruct (r e) as [t|] eqn:He; [|discriminate].
    destruct (mapM r entries) as [ts'|] eqn:Hrest; [|discriminate].
    injection Hts as <-. simpl.
    rewrite (bind_ok _ _ t w (update_world (executors w) (cs e) w))
      by (rewrite Hk, He; [reflexivity|assumption]).
    rewrite (bind_ok _ _ ts' _ _ (IH ts' _ (HP _ _ Hw) eq_refl)).
    unfold ret. rewrite update_world_twice. reflexivity.
Qed.

End Steps.

(** ** The predict sequence *)

Section Predict.
Context {tvm : TVM}.

Lemma enumerate_length {A} (xs : list A) :
  length (enumerate xs) = length xs.
Proof.
  unfold enumerate. rewrite length_combine, length_seq. apply Nat.min_id.
Qed.

Lemma enumerate_from_lookup {A} (xs : list A) k i x :
  xs !! i = Some x ->
  combine (seq k (length xs)) xs !! i = Some ((k + i)%nat, x).
Proof.
  revert k i. induction xs as [|y xs IH]; intros k [|i] Hx; simpl in *;
    try discriminate.
  - injection Hx as ->. rewrite Nat.add_0_r. reflexivity.
  - rewrite (IH (S k) i Hx). f_equal. f_equal. lia.
Qed.

Lemma enumerate_lookup {A} (xs : list A) i x :
  xs !! i = Some x -> enumerate xs !! i = Some (i, x).
Proof. intros Hx. apply (enumerate_from_lookup xs 0 i x Hx). Qed.

Lemma enumerate_snd {A} (xs : list A) : map snd (enumerate xs) = xs.
Proof.
  unfold enumerate. generalize 0%nat.
  induction xs as [|x xs IH]; intros k; simpl; [|rewrite IH]; reflexivity.
Qed.

(** The loop and the run of [_predict_array], when the runtime accepts the
    bindings and runs. *)
Lemma predict_array_steps {X} (f : X -> result ndarray)
    (self : ApacheTVMInferenceLearner) xs arrays g g1 g2 (w : world) :
  executors w !! graph_executor_module self = Some g ->
  mapM f (take (length (input_names self)) xs) = Ok arrays ->
  bind_inputs g (combine (input_names self) arrays) = Ok g1 ->
  gm_run g1 = Ok g2 ->
  _predict_array self (map (fun x => lift (f x)) xs) w
  = (Ok (tvm_outputs self),
     update_world (<[graph_executor_module self := g2]> (executors w))
       (set_input_calls (graph_executor_module self)
          (combine (input_names self) arrays)
        ++ [run_call (graph_executor_module self)]) w).
Proof.
  intros Hg Hxs Hbind Hrun. unfold _predict_array.
  rewrite (bind_ok _ _ tt _ _
             (for_zip_set_input f _ _ _ _ _ _ _ Hg Hxs Hbind)).
  assert (Hlt : (graph_executor_module self < length (executors w))%nat)
    by (eapply lookup_lt_Some; eassumption).
  erewrite (bind_ok _ _ tt).
  2:{ eapply run_ok; [|exact Hrun]. simpl.
      apply list_lookup_insert_eq. assumption. }
  unfold ret. rewrite update_world_twice. simpl.
  rewrite list_insert_insert_eq. reflexivity.
Qed.

Lemma set_input_calls_lookup gm (names : list string) (arrays : list ndarray)
    i name a :
  names !! i = Some name ->
  arrays !! i = Some a ->
  set_input_calls gm (combine names arrays) !! i
  = Some (set_input_call gm name a).
Proof.
  revert arrays i. induction names as [|n names IH];
    intros [|b arrays] [|i] Hn Ha; simpl in *; try discriminate.
  - injection Hn as ->. injection Ha as ->. reflexivity.
  - apply IH; assumption.
Qed.

(** C1: with as many arrays as input names, [_predict_array] calls
    [set_input] once per name, the i-th call binding the i-th name to the
    i-th array, and then calls [run] once: these are all the calls it makes
    on the runtime. *)
Theorem predict_array_set_input_then_run
    (self : ApacheTVMInferenceLearner) (arrays : list ndarray)
    g g1 g2 (w : world) :
  length arrays = length (input_names self) ->
  executors w !! graph_executor_module self = Some g ->
  bind_inputs g (combine (input_names self) arrays) = Ok g1 ->
  gm_run g1 = Ok g2 ->
  let gm := graph_executor_module self in
  let bound := set_input_calls gm (combine (input_names self) arrays) in
  exists w',
    _predict_array self (generator_of_list arrays) w
    = (Ok (tvm_outputs self), w')
    /\ calls w' = calls w ++ bound ++ [run_call gm]
    /\ length bound = length (input_names self)
    /\ (forall i name a,
          input_names self !! i = Some name ->
          arrays !! i = Some a ->
          bound !! i = Some (set_input_call gm name a))
    /\ filter is_set_input_call (bound ++ [run_call gm]) = bound
    /\ filter is_run_call (bound ++ [run_call gm]) = [run_call gm]
    /\ executors w' = <[gm := g2]> (executors w).
Proof.
  intros Hlen Hg Hbind Hrun gm bound.
  eexists. split.
  - change (generator_of_list arrays)
      with (map (fun a : ndarray => lift (Ok a)) arrays).
    apply (predict_array_steps Ok self arrays arrays g g1 g2 w Hg);
      [|assumption|assumption].
    rewrite <- Hlen, firstn_all. apply mapM_pure.
  - simpl. split; [reflexivity|]. split.
    { unfold bound, set_input_calls.
      rewrite length_map, length_combine, Hlen. apply Nat.min_id. }
    split; [intros i name a; apply set_input_calls_lookup|].
    assert (Hset : forall l : list (string * ndarray),
               filter is_set_input_call (set_input_calls gm l)
               = set_input_calls gm l
               /\ filter is_run_call (set_input_calls gm l) = []).
    { induction l as [|[n a] l [IH1 IH2]]; [split; reflexivity|].
      split; simpl.
      - rewrite filter_cons_True by exact I. f_equal. exact IH1.
      - rewrite filter_cons_False by (simpl; exact (fun H => H)).
        exact IH2. }
    destruct (Hset (combine (input_names self) arrays)) as [H1 H2].
    rewrite !filter_app. fold bound in H1, H2. rewrite H1, H2.
    split; [|split; reflexivity].
    rewrite filter_cons_False by (simpl; exact (fun H => H)).
    rewrite filter_nil. apply app_nil_r.
Qed.

Lemma combine_take_min {A B} (xs : list A) (ys : list B) :
  combine xs ys
  = combine (take (Nat.min (length xs) (length ys)) xs)
            (take (Nat.min (length xs) (length ys)) ys).
Proof.
  revert ys. induction xs as [|x xs IH]; intros [|y ys]; simpl;
    try reflexivity.
  f_equal. apply IH.
Qed.

(** C3: with more or fewer arrays than input names, [_predict_array] binds
    the first [min] names to the first [min] arrays, position by position,
    binds nothing else, calls [run] and returns without an error. *)
Theorem predict_array_truncates
    (self : ApacheTVMInferenceLearner) (arrays : list ndarray)
    g g1 g2 (w : world) :
  length arrays <> length (input_names self) ->
  let gm := graph_executor_module self in
  let k := Nat.min (length (input_names self)) (length arrays) in
  let bound :=
    set_input_calls gm (combine (take k (input_names self)) (take k arrays)) in
  executors w !! gm = Some g ->
  bind_inputs g (combine (take k (input_names self)) (take k arrays)) = Ok g1 ->
  gm_run g1 = Ok g2 ->
  exists w',
    _predict_array self (generator_of_list arrays) w
    = (Ok (tvm_outputs self), w')
    /\ calls w' = calls w ++ bound ++ [run_call gm]
    /\ length bound = k
    /\ (forall i name a,
          input_names self !! i = Some name ->
          arrays !! i = Some a ->
          bound !! i = Some (set_input_call gm name a))
    /\ executors w' = <[gm := g2]> (executors w).
Proof.
  intros _ gm k bound Hg Hbind Hrun.
  assert (Hcomb : combine (input_names self) arrays
                  = combine (take k (input_names self)) (take k arrays))
    by apply combine_take_min.
  eexists. split.
  - change (generator_of_list arrays)
      with (map (fun a : ndarray => lift (Ok a)) arrays).
    apply (predict_array_steps Ok self arrays
             (take (length (input_names self)) arrays) g g1 g2 w Hg);
      [apply mapM_pure| |assumption].
    rewrite <- combine_firstn_l, Hcomb. assumption.
  - simpl. rewrite <- combine_firstn_l. fold gm. rewrite Hcomb. fold bound.
    split; [reflexivity|]. split.
    { unfold bound, set_input_calls.
      rewrite length_map, length_combine, !length_take. unfold k. lia. }
    split; [|reflexivity].
    intros i name a Hn Ha. unfold bound. rewrite <- Hcomb.
    apply set_input_calls_lookup; assumption.
Qed.

Lemma output_calls_nd_empty gm b (entries : list (nat * list Z)) :
  filter is_nd_empty_call (output_calls gm b entries)
  = map (fun entry => nd_empty_call (b :: entry.2)) entries.
Proof.
  induction entries as [|e entries IH]; [reflexivity|].
  simpl. rewrite filter_cons_True by exact I.
  rewrite filter_cons_False by (simpl; exact (fun H => H)).
  f_equal. exact IH.
Qed.

(** Consuming [tvm_outputs]: every item allocates its buffer and asks the
    runtime for its output, in the order of [output_sizes]. *)
Lemma tuple_tvm_outputs {T} (post : ndarray -> result T)
    (self : ApacheTVMInferenceLearner) g ts (w : world) :
  executors w !! graph_executor_module self = Some g ->
  mapM (converted_output post g (batch_size (network_parameters self)))
       (enumerate (output_sizes (network_parameters self))) = Ok ts ->
  tuple (map (fun next_output =>
                output_array <- next_output ;;
                lift (post output_array))
             (tvm_outputs self)) w
  = (Ok ts,
     update_world (executors w)
       (output_calls (graph_executor_module self)
          (batch_size (network_parameters self))
          (enumerate (output_sizes (network_parameters self)))) w).
Proof.
  intros Hg Hts. unfold tvm_outputs. rewrite map_map.
  apply (tuple_map_steps _
           (converted_output post g (batch_size (network_parameters self)))
           (fun entry =>
              output_calls (graph_executor_module self)
                (batch_size (network_parameters self)) [entry])
           (fun w => executors w !! graph_executor_module self = Some g));
    [| |assumption|assumption].
  - intros [i sz] w0 Hw0.
    apply (converted_output_step post _ g _ (i, sz) w0 Hw0).
  - intros w0 l Hw0. exact Hw0.
Qed.

Lemma mapM_converted {T} (post : ndarray -> result T) g b entries outs ts :
  mapM (fetch_output g b) entries = Ok outs ->
  mapM post outs = Ok ts ->
  mapM (converted_output post g b) entries = Ok ts.
Proof.
  revert outs ts. induction entries as [|e entries IH]; intros outs ts Ho Ht;
    simpl in Ho.
  - injection Ho as <-. simpl in Ht. injection Ht as <-. reflexivity.
  - destruct (fetch_output g b e) as [o|] eqn:He; [|discriminate].
    destruct (mapM (fetch_output g b) entries) as [outs'|]; [|discriminate].
    injection Ho as <-. simpl in Ht.
    destruct (post o) as [t|] eqn:Hp; [|discriminate].
    destruct (mapM post outs') as [ts'|] eqn:Hps; [|discriminate].
    injection Ht as <-. simpl. unfold converted_output at 1.
    rewrite He, Hp, (IH outs' ts' eq_refl Hps). reflexivity.
Qed.

Lemma fetch_outputs_shape g b (sizes : list (list Z)) outs :
  mapM (fetch_output g b) (enumerate sizes) = Ok outs ->
  map shape outs = map (cons b) sizes
  /\ forall i sz,
       sizes !! i = Some sz ->
       exists d,
         outs !! i = Some {| shape := b :: sz; data := d |}
         /\ gm_get_output g i (b :: sz) = Ok d.
Proof.
  intros Houts. apply mapM_Forall2 in Houts. split.
  - rewrite <- (enumerate_snd sizes) at 1. rewrite map_map.
    induction Houts as [|e o es os He _ IH]; [reflexivity|].
    simpl. rewrite IH. f_equal. unfold fetch_output in He.
    destruct (gm_get_output g e.1 (b :: e.2)); [|discriminate].
    injection He as <-. reflexivity.
  - intros i sz Hsz. apply enumerate_lookup in Hsz.
    destruct (Forall2_lookup_l _ _ _ _ _ Houts Hsz) as (o & Ho & He).
    unfold fetch_output in He. simpl in He.
    destruct (gm_get_output g i (b :: sz)) as [d|]; [|discriminate].
    injection He as <-. exists d. split; [assumption|reflexivity].
Qed.

(** C5: the predict sequence yields one output per entry of
    [output_sizes], in that order; the i-th buffer is allocated with the
    shape [(batch_size, *output_sizes[i])] and the i-th output has that
    shape.  With [batch_size = 2] and [output_sizes = [(10,)]] there is
    exactly one output, of shape [(2, 10)]. *)
Theorem predict_outputs_follow_output_sizes
    (self : ApacheTVMInferenceLearner) (arrays : list ndarray)
    g g1 g2 outs (w : world) :
  let gm := graph_executor_module self in
  let b := batch_size (network_parameters self) in
  let sizes := output_sizes (network_parameters self) in
  executors w !! gm = Some g ->
  bind_inputs g (combine (input_names self) arrays) = Ok g1 ->
  gm_run g1 = Ok g2 ->
  mapM (fetch_output g2 b) (enumerate sizes) = Ok outs ->
  length (tvm_outputs self) = length sizes
  /\ exists w',
      (output_arrays <- _predict_array self (generator_of_list arrays) ;;
       tuple output_arrays) w = (Ok outs, w')
      /\ length outs = length sizes
      /\ map shape outs = map (cons b) sizes
      /\ (forall i sz,
            sizes !! i = Some sz ->
            exists d,
              outs !! i = Some {| shape := b :: sz; data := d |}
              /\ gm_get_output g2 i (b :: sz) = Ok d)
      /\ calls w'
         = calls w
           ++ (set_input_calls gm (combine (input_names self) arrays)
               ++ [run_call gm])
           ++ output_calls gm b (enumerate sizes)
      /\ filter is_nd_empty_call (output_calls gm b (enumerate sizes))
         = map (fun sz => nd_empty_call (b :: sz)) sizes
      /\ (network_parameters self
          = {| batch_size := 2; output_sizes := [[10]] |} ->
          exists d, outs = [{| shape := [2; 10]; data := d |}]).
Proof.
  intros gm b sizes Hg Hbind Hrun Houts.
  assert (Hlt : (gm < length (executors w))%nat)
    by (eapply lookup_lt_Some; eassumption).
  destruct (fetch_outputs_shape g2 b sizes outs Houts) as [Hshape Hith].
  split.
  { unfold tvm_outputs. rewrite length_map. apply enumerate_length. }
  eexists. split.
  - erewrite bind_ok.
    2:{ change (generator_of_list arrays)
          with (map (fun a : ndarray => lift (Ok a)) arrays).
        apply (predict_array_steps Ok self arrays
                 (take (length (input_names self)) arrays) g g1 g2 w Hg);
          [apply mapM_pure| |assumption].
        rewrite <- combine_firstn_l. assumption. }
    unfold tvm_outputs.
    erewrite (tuple_map_steps _ (fetch_output g2 b)
                (fun entry => output_calls gm b [entry])
                (fun w => executors w !! gm = Some g2)).
    + rewrite update_world_twice. reflexivity.
    + intros [i sz] w0 Hw0. apply (output_step gm g2 b (i, sz) w0 Hw0).
    + intros w0 l Hw0. exact Hw0.
    + simpl. apply list_lookup_insert_eq. assumption.
    + exact Houts.
  - split.
    { rewrite (mapM_length _ _ _ Houts). apply enumerate_length. }
    split; [assumption|]. split; [assumption|]. simpl. split.
    { rewrite <- combine_firstn_l. reflexivity. }
    split.
    { rewrite output_calls_nd_empty.
      rewrite <- (enumerate_snd sizes) at 2. rewrite map_map. reflexivity. }
    intros Hparams.
    assert (Hs : sizes = [[10]]) by (unfold sizes; rewrite Hparams; reflexivity).
    assert (Hb : b = 2) by (unfold b; rewrite Hparams; reflexivity).
    destruct (Hith 0%nat [10]) as (d & Hd & _); [rewrite Hs; reflexivity|].
    exists d. rewrite Hs in Hshape. rewrite Hb in Hd.
    destruct outs as [|o [|o' outs]]; simpl in Hshape; try discriminate.
    simpl in Hd. injection Hd as ->. reflexivity.
Qed.

Lemma for_zip_take {A} (body : string -> A -> M unit) :
  forall names (xs : generator A) (w : world),
    for_zip names xs body w = for_zip names (take (length names) xs) body w.
Proof.
  induction names as [|name names IH]; intros xs w; [reflexivity|].
  destruct xs as [|x xs]; [reflexivity|]. simpl.
  unfold bind. destruct (x w) as [[a|e] w1]; [|reflexivity].
  destruct (body name a w1) as [[[]|e] w2]; [|reflexivity].
  apply IH.
Qed.

Lemma predict_array_take (self : ApacheTVMInferenceLearner)
    (xs : generator ndarray) (w : world) :
  _predict_array self xs w
  = _predict_array self (take (length (input_names self)) xs) w.
Proof.
  unfold _predict_array. unfold bind.
  rewrite (for_zip_take _ (input_names self) xs w). reflexivity.
Qed.

End Predict.

(** ** The PyTorch learner *)

Section Pytorch.
Context {tvm : TVM} {torch : Torch}.

(** C4: [_convert_device] maps every integer device index, [0] included,
    to the string [cpu] (and so every instance of [int]), and returns
    every other device identity unchanged. *)
Theorem convert_device_normalizes :
  (forall index, _convert_device (DeviceInt index) = DeviceStr "cpu")
  /\ _convert_device (DeviceInt 0) = DeviceStr "cpu"
  /\ (forall d, isinstance_int d = true -> _convert_device d = DeviceStr "cpu")
  /\ (forall d, isinstance_int d = false -> _convert_device d = d)
  /\ (forall name, _convert_device (DeviceStr name) = DeviceStr name)
  /\ _convert_device DeviceNone = DeviceNone.
Proof.
  repeat split; try reflexivity; intros d Hd; unfold _convert_device;
    rewrite Hd; reflexivity.
Qed.

(** C6, as amended: on a non-empty tuple of tensors, [predict] takes the
    device of the first tensor and normalizes it: [cpu] when it is an
    integer, the device itself otherwise.  The tensors that have an input
    name at their position are moved to the host, detached and then
    converted, and their arrays are bound to the names position by
    position; the tensors beyond the input names are never converted and
    play no part.  Every output array is turned into a tensor and moved to
    the normalized device, in the order the runtime yields the outputs. *)
Theorem pytorch_predict_marshals
    (self : ApacheTVMInferenceLearner) (t0 : Tensor) (ts : list Tensor)
    arrays g g1 g2 outs (tensors_out : list Tensor) (w : world) :
  let gm := graph_executor_module self in
  let b := batch_size (network_parameters self) in
  let sizes := output_sizes (network_parameters self) in
  let consumed := take (length (input_names self)) (t0 :: ts) in
  let dev :=
    if isinstance_int (get_device t0) then DeviceStr "cpu"
    else get_device t0 in
  executors w !! gm = Some g ->
  mapM (fun t => numpy (detach (cpu t))) consumed = Ok arrays ->
  bind_inputs g (combine (input_names self) arrays) = Ok g1 ->
  gm_run g1 = Ok g2 ->
  mapM (fetch_output g2 b) (enumerate sizes) = Ok outs ->
  mapM (fun o => to (from_numpy o) dev) outs = Ok tensors_out ->
  exists w',
    Pytorch_predict self (t0 :: ts) w = (Ok tensors_out, w')
    /\ calls w'
       = calls w
         ++ (set_input_calls gm (combine (input_names self) arrays)
             ++ [run_call gm])
         ++ output_calls gm b (enumerate sizes)
    /\ Forall2 (fun t a => numpy (detach (cpu t)) = Ok a) consumed arrays
    /\ Forall2 (fun o t => to (from_numpy o) dev = Ok t) outs tensors_out
    /\ length tensors_out = length sizes
    /\ (length (t0 :: ts) <= length (input_names self) ->
        consumed = t0 :: ts)%nat
    /\ (forall surplus,
          (length (input_names self) <= length (t0 :: ts))%nat ->
          Pytorch_predict self ((t0 :: ts) ++ surplus) w
          = Pytorch_predict self (t0 :: ts) w).
Proof.
  intros gm b sizes consumed dev Hg Harrays Hbind Hrun Houts Hpost.
  assert (Hlt : (gm < length (executors w))%nat)
    by (eapply lookup_lt_Some; eassumption).
  eexists. split.
  - unfold Pytorch_predict. simpl tuple_first.
    rewrite (bind_ok _ _ t0 w w) by reflexivity.
    erewrite bind_ok.
    2:{ apply (predict_array_steps (fun t => numpy (detach (cpu t))) self
                 (t0 :: ts) arrays g g1 g2 w Hg); assumption. }
    unfold _convert_device. fold dev.
    erewrite (tuple_tvm_outputs (fun o => to (from_numpy o) dev) self g2).
    + rewrite update_world_twice. reflexivity.
    + simpl. apply list_lookup_insert_eq. assumption.
    + eapply mapM_converted; eassumption.
  - simpl. split; [reflexivity|].
    split; [apply mapM_Forall2; assumption|].
    split; [apply mapM_Forall2; assumption|]. split.
    { rewrite (mapM_length _ _ _ Hpost), (mapM_length _ _ _ Houts).
      apply enumerate_length. }
    split.
    { intros Hle. unfold consumed. apply firstn_all2. exact Hle. }
    intros surplus Hle. unfold Pytorch_predict.
    change ((t0 :: ts) ++ surplus) with (t0 :: (ts ++ surplus)).
    simpl tuple_first. rewrite !(bind_ok _ _ t0 w w) by reflexivity.
    unfold bind.
    rewrite (predict_array_take self
               (map (fun input_tensor : Tensor =>
                       lift (numpy (detach (cpu input_tensor))))
                    (t0 :: (ts ++ surplus))) w).
    rewrite (predict_array_take self
               (map (fun input_tensor : Tensor =>
                       lift (numpy (detach (cpu input_tensor))))
                    (t0 :: ts)) w).
    rewrite !firstn_map.
    change (t0 :: (ts ++ surplus)) with ((t0 :: ts) ++ surplus).
    rewrite (take_app_le (t0 :: ts) surplus _ Hle). reflexivity.
Qed.

(** C9: with no input tensor, [predict] raises the [IndexError] of
    [input_tensors[0]] and returns no result, not even an empty one; the
    world is as before: no call was made on the runtime and no executor was
    touched. *)
Theorem pytorch_predict_no_input (self : ApacheTVMInferenceLearner)
    (w : world) :
  Pytorch_predict self [] w = (Raise IndexError, w)
  /\ (forall outputs w', Pytorch_predict self [] w <> (Ok outputs, w'))
  /\ calls (Pytorch_predict self [] w).2 = calls w
  /\ executors (Pytorch_predict self [] w).2 = executors w.
Proof.
  assert (Hfails : Pytorch_predict self [] w = (Raise IndexError, w))
    by reflexivity.
  split; [exact Hfails|]. rewrite Hfails. split; [|split; reflexivity].
  intros outputs w'. discriminate.
Qed.

End Pytorch.

(** ** The result of [predict] depends on the executor's state only *)

Section Result.
Context {tvm : TVM}.

Lemma set_input_raise gm name a g e (w : world) :
  executors w !! gm = Some g ->
  gm_set_input g name a = Raise e ->
  (set_input gm name a w).1 = Raise e.
Proof.
  intros Hg Hset. unfold set_input, log, read_executor, lift, write_executor.
  unfold bind. simpl. rewrite Hg, Hset. reflexivity.
Qed.

Lemma run_raise gm g e (w : world) :
  executors w !! gm = Some g ->
  gm_run g = Raise e ->
  (run gm w).1 = Raise e.
Proof.
  intros Hg Hrun. unfold run, log, read_executor, lift, write_executor.
  unfold bind. simpl. rewrite Hg, Hrun. reflexivity.
Qed.

Lemma bind_fst_raise {A B} (m : M A) (k : A -> M B) e w :
  (m w).1 = Raise e -> (bind m k w).1 = Raise e.
Proof.
  intros Hm. unfold bind. destruct (m w) as [[a|e'] w']; simpl in *;
    [discriminate|injection Hm as ->; reflexivity].
Qed.

Lemma for_zip_result {X} (f : X -> result ndarray) gm :
  forall names xs g (w : world),
    executors w !! gm = Some g ->
    match feed f g names xs with
    | Ok g1 =>
        exists w',
          for_zip names (map (fun x => lift (f x)) xs) (set_input gm) w
          = (Ok tt, w')
          /\ executors w' !! gm = Some g1
    | Raise e =>
        (for_zip names (map (fun x => lift (f x)) xs) (set_input gm) w).1
        = Raise e
    end.
Proof.
  induction names as [|name names IH]; intros xs g w Hg.
  - simpl. exists w. split; [reflexivity|assumption].
  - destruct xs as [|x xs]; simpl.
    + exists w. split; [reflexivity|assumption].
    + destruct (f x) as [a|e] eqn:Hx.
      * rewrite (bind_ok _ _ a w w) by reflexivity.
        destruct (gm_set_input g name a) as [g'|e] eqn:Hset.
        -- rewrite (bind_ok _ _ tt _ _ (set_input_ok _ _ _ _ _ _ Hg Hset)).
           apply IH. simpl. apply list_lookup_insert_eq.
           eapply lookup_lt_Some; eassumption.
        -- apply bind_fst_raise. eapply set_input_raise; eassumption.
      * apply bind_fst_raise. reflexivity.
Qed.

Lemma tuple_map_result {E T} (k : E -> M T) (r : E -> result T)
    (P : world -> Prop) :
  (forall e w, P w -> (k e w).1 = r e /\ P (k e w).2) ->
  forall entries w, P w -> (tuple (map k entries) w).1 = mapM r entries.
Proof.
  intros Hk. induction entries as [|e entries IH]; intros w Hw;
    [reflexivity|].
  simpl. destruct (Hk e w Hw) as [Hr HP]. unfold bind at 1.
  destruct (k e w) as [[t|err] w1]; simpl in Hr, HP; rewrite <- Hr;
    [|reflexivity].
  specialize (IH w1 HP). unfold bind.
  destruct (tuple (map k entries) w1) as [[ts|err] w2]; simpl in IH;
    rewrite <- IH; reflexivity.
Qed.

Lemma pipeline_result {X T} (f : X -> result ndarray)
    (post : ndarray -> result T) (self : ApacheTVMInferenceLearner)
    xs g (w : world) :
  executors w !! graph_executor_module self = Some g ->
  ((output_arrays <- _predict_array self (map (fun x => lift (f x)) xs) ;;
    tuple (map (fun next_output =>
                  output_array <- next_output ;;
                  lift (post output_array))
               output_arrays)) w).1
  = predict_result f post (input_names self) (network_parameters self) g xs.
Proof.
  intros Hg. unfold predict_result.
  pose proof (for_zip_result f (graph_executor_module self)
                (input_names self) xs g w Hg) as Hloop.
  destruct (feed f g (input_names self) xs) as [g1|e].
  - destruct Hloop as (w1 & Hloop & Hg1).
    destruct (gm_run g1) as [g2|e] eqn:Hrun.
    + erewrite bind_ok.
      2:{ unfold _predict_array. rewrite (bind_ok _ _ tt _ _ Hloop).
          rewrite (bind_ok _ _ tt _ _ (run_ok _ _ _ _ Hg1 Hrun)).
          reflexivity. }
      unfold tvm_outputs. rewrite map_map.
      apply (tuple_map_result _ _
               (fun w => executors w !! graph_executor_module self
                         = Some g2)).
      * intros [i sz] w0 Hw0.
        rewrite (converted_output_step post _ g2 _ (i, sz) w0 Hw0).
        split; [reflexivity|exact Hw0].
      * simpl. apply list_lookup_insert_eq.
        eapply lookup_lt_Some; eassumption.
    + apply bind_fst_raise. unfold _predict_array.
      rewrite (bind_ok _ _ tt _ _ Hloop).
      apply bind_fst_raise. eapply run_raise; eassumption.
  - do 2 apply bind_fst_raise. exact Hloop.
Qed.

End Result.

(** ** Construction and persistence *)

Section Persistence.
Context {tvm : TVM}.

Lemma from_runtime_module_ok c params l target_device names dev g
    (w : world) :
  tvm_device target_device 0 = Ok dev ->
  tvm_graph_executor l dev = Ok g ->
  from_runtime_module c params l target_device names w
  = (Ok {| cls := c;
           network_parameters := params;
           graph_executor_module := length (executors w);
           input_names := names;
           lib := l;
           target := target_device |},
     update_world (executors w ++ [g])
       [tvm_device_call target_device 0; GraphModule_call l dev] w).
Proof.
  intros Hdev Hg.
  unfold from_runtime_module, device, new_GraphModule, new_executor, log,
    lift, ret, str, update_world.
  unfold bind. simpl. rewrite Hdev. simpl. rewrite Hg. simpl.
  rewrite <- app_assoc. reflexivity.
Qed.

(** C10: [from_runtime_module] asks the runtime for the device
    [(target_device, 0)], whatever the target, and asks for no other
    device; a learner it returns has the arguments as its fields; and it
    returns one, bound to a new executor, whenever the runtime resolves the
    device and instantiates the library. *)
Theorem from_runtime_module_fields c params l target_device names
    (w : world) :
  (exists cs,
      calls (from_runtime_module c params l target_device names w).2
      = calls w ++ tvm_device_call target_device 0 :: cs
      /\ filter is_tvm_device_call cs = [])
  /\ (forall self w',
        from_runtime_module c params l target_device names w = (Ok self, w') ->
        cls self = c
        /\ network_parameters self = params
        /\ lib self = l
        /\ input_names self = names
        /\ target self = target_device)
  /\ (forall dev g,
        tvm_device target_device 0 = Ok dev ->
        tvm_graph_executor l dev = Ok g ->
        exists self w',
          from_runtime_module c params l target_device names w = (Ok self, w')
          /\ executors w' !! graph_executor_module self = Some g
          /\ executors w' = executors w ++ [g]).
Proof.
  split; [|split].
  - unfold from_runtime_module, device, new_GraphModule, new_executor, log,
      lift, ret, str.
    unfold bind. simpl.
    destruct (tvm_device target_device 0) as [dev|e]; simpl.
    + destruct (tvm_graph_executor l dev) as [g|e]; simpl;
        eexists; (split; [rewrite <- app_assoc; reflexivity|reflexivity]).
    + exists []. split; reflexivity.
  - intros self w'.
    unfold from_runtime_module, device, new_GraphModule, new_executor, log,
      lift, ret, str.
    unfold bind. simpl.
    destruct (tvm_device target_device 0) as [dev|e]; simpl;
      [|discriminate].
    destruct (tvm_graph_executor l dev) as [g|e]; simpl; [|discriminate].
    intros [= <- _]. repeat split; reflexivity.
  - intros dev g Hdev Hg. eexists. eexists.
    split; [apply from_runtime_module_ok; eassumption|].
    simpl. split; [|reflexivity].
    rewrite lookup_app_r by reflexivity. rewrite Nat.sub_diag. reflexivity.
Qed.

Lemma save_ok (self : ApacheTVMInferenceLearner) path (w : world) :
  save self path ∅ w
  = (Ok tt,
     {| executors := executors w;
        libraries :=
          <[path_join path TVM_FILENAMES_engine := lib self]> (libraries w);
        metadata_files :=
          <[path := LearnerMetadata_from_model self (input_names self)
                      (target self) ∅]> (metadata_files w);
        calls :=
          calls w
          ++ [export_library_call (lib self)
                (path_join path TVM_FILENAMES_engine)] |}).
Proof.
  unfold save. rewrite bool_decide_eq_false_2; [reflexivity|].
  rewrite dom_empty_L. intros [H|H]; exact (not_elem_of_empty _ H).
Qed.

Lemma ModelParams_kwargs_id (d : ModelParams) : ModelParams_kwargs d = d.
Proof. destruct d. reflexivity. Qed.

Lemma load_ok c path md params names target_device l dev g (w : world) :
  metadata_files w !! path = Some md ->
  md_network_parameters md = Some params ->
  md_input_names md = Some names ->
  md_target md = Some target_device ->
  libraries w !! path_join path TVM_FILENAMES_engine = Some l ->
  tvm_device target_device 0 = Ok dev ->
  tvm_graph_executor l dev = Ok g ->
  load c path w
  = (Ok {| cls := c;
           network_parameters := params;
           graph_executor_module := length (executors w);
           input_names := names;
           lib := l;
           target := target_device |},
     update_world (executors w ++ [g])
       [load_module_call (path_join path TVM_FILENAMES_engine);
        tvm_device_call target_device 0; GraphModule_call l dev] w).
Proof.
  intros Hmd Hparams Hnames Htarget Hlib Hdev Hg.
  unfold load, LearnerMetadata_read, load_module, log.
  unfold bind. simpl. rewrite Hmd, Hparams. simpl. rewrite Hlib, Htarget.
  simpl. rewrite Hnames. simpl. rewrite ModelParams_kwargs_id.
  rewrite (from_runtime_module_ok _ _ _ _ _ dev g _ Hdev Hg).
  unfold update_world. simpl. rewrite <- app_assoc. reflexivity.
Qed.

Lemma pytorch_predict_result {torch : Torch}
    (self : ApacheTVMInferenceLearner) (tensors : list Tensor) g (w : world) :
  executors w !! graph_executor_module self = Some g ->
  (Pytorch_predict self tensors w).1
  = match tensors with
    | [] => Raise IndexError
    | t0 :: _ =>
        predict_result (fun t => numpy (detach (cpu t)))
          (fun o => to (from_numpy o) (_convert_device (get_device t0)))
          (input_names self) (network_parameters self) g tensors
    end.
Proof.
  intros Hg. destruct tensors as [|t0 ts]; [reflexivity|].
  unfold Pytorch_predict. simpl tuple_first.
  rewrite (bind_ok _ _ t0 w w) by reflexivity.
  apply (pipeline_result (fun t => numpy (detach (cpu t)))
           (fun o => to (from_numpy o) (_convert_device (get_device t0)))
           self (t0 :: ts) g w Hg).
Qed.

Lemma tensorflow_predict_result {tf : TensorFlow}
    (self : ApacheTVMInferenceLearner) (tensors : list tfTensor) g
    (w : world) :
  executors w !! graph_executor_module self = Some g ->
  (Tensorflow_predict self tensors w).1
  = predict_result (fun t => Ok (tf_numpy t))
      (fun o => Ok (convert_to_tensor o))
      (input_names self) (network_parameters self) g tensors.
Proof.
  intros Hg.
  apply (pipeline_result (fun t => Ok (tf_numpy t))
           (fun o => Ok (convert_to_tensor o)) self tensors g w Hg).
Qed.

(** *** Two executors that differ by stale bindings only *)

Lemma mapM_ext {A B} (f f' : A -> result B) (xs : list A) :
  (forall x, f x = f' x) -> mapM f xs = mapM f' xs.
Proof.
  intros Hf. induction xs as [|x xs IH]; [reflexivity|].
  simpl. rewrite Hf, IH. reflexivity.
Qed.

(** The loop on both executors: it fails alike, or it leaves stale only
    the names it did not bind. *)
Lemma feed_same {X} (rt : InputDetermined tvm) (f : X -> result ndarray) :
  forall names xs stale g g',
    same_up_to rt stale g g' ->
    match feed f g names xs, feed f g' names xs with
    | Ok g1, Ok g1' =>
        same_up_to rt
          (stale ∖ list_to_set (take (length xs) names)) g1 g1'
    | Raise e, Raise e' => e = e'
    | _, _ => False
    end.
Proof.
  induction names as [|name names IH]; intros xs stale g g' Hsame.
  - simpl. destruct xs; simpl;
      (eapply same_up_to_mono; [|exact Hsame]); set_solver.
  - destruct xs as [|x xs]; simpl.
    + eapply same_up_to_mono; [|exact Hsame]. set_solver.
    + destruct (f x) as [a|e]; [|reflexivity].
      pose proof (same_up_to_set_input rt stale g g' name a Hsame) as Hset.
      destruct (gm_set_input g name a) as [g1|e1],
               (gm_set_input g' name a) as [g1'|e1'];
        try (destruct Hset; fail); [|exact Hset].
      specialize (IH xs _ g1 g1' Hset).
      destruct (feed f g1 names xs) as [g2|e2],
               (feed f g1' names xs) as [g2'|e2'];
        try (destruct IH; fail); [|exact IH].
      eapply same_up_to_mono; [|exact IH]. set_solver.
Qed.

Lemma predict_result_same {X T} (rt : InputDetermined tvm)
    (f : X -> result ndarray) (post : ndarray -> result T)
    names params stale g g' xs :
  same_up_to rt stale g g' ->
  stale ⊆ list_to_set (take (length xs) names) ->
  predict_result f post names params g xs
  = predict_result f post names params g' xs.
Proof.
  intros Hsame Hbound. unfold predict_result.
  pose proof (feed_same rt f names xs stale g g' Hsame) as Hfeed.
  destruct (feed f g names xs) as [g1|e1],
           (feed f g' names xs) as [g1'|e1'];
    try (destruct Hfeed; fail); [|congruence].
  assert (Hfresh : same_up_to rt ∅ g1 g1')
    by (eapply same_up_to_mono; [|exact Hfeed]; set_solver).
  pose proof (same_up_to_run rt g1 g1' Hfresh) as Hrun.
  destruct (gm_run g1) as [g2|e2], (gm_run g1') as [g2'|e2'];
    try (destruct Hrun; fail); [|congruence].
  apply mapM_ext. intros entry. unfold converted_output, fetch_output.
  rewrite (same_outputs_get_output rt g2 g2' _ _ Hrun). reflexivity.
Qed.

(** An executor that was used differs from what it was only by what is
    bound to the names of the call. *)
Lemma feed_stale {X} (rt : InputDetermined tvm) (f : X -> result ndarray) :
  forall names xs stale g g' g1,
    same_up_to rt stale g g' ->
    feed f g names xs = Ok g1 ->
    same_up_to rt (stale ∪ list_to_set names) g1 g'.
Proof.
  induction names as [|name names IH]; intros xs stale g g' g1 Hsame Hfeed.
  - simpl in Hfeed. injection Hfeed as <-.
    eapply same_up_to_mono; [|exact Hsame]. set_solver.
  - destruct xs as [|x xs]; simpl in Hfeed.
    + injection Hfeed as <-.
      eapply same_up_to_mono; [|exact Hsame]. set_solver.
    + destruct (f x) as [a|]; [|discriminate].
      destruct (gm_set_input g name a) as [g0|] eqn:Hset; [|discriminate].
      pose proof (same_up_to_after_set_input rt stale g g' name a g0
                    Hsame Hset) as Hstale.
      eapply same_up_to_mono;
        [|exact (IH xs _ g0 g' g1 Hstale Hfeed)]. set_solver.
Qed.

Lemma used_executor_same_up_to {X} (rt : InputDetermined tvm)
    (f : X -> result ndarray) names xs stale g g' g1 g2 :
  same_up_to rt stale g g' ->
  feed f g names xs = Ok g1 ->
  gm_run g1 = Ok g2 ->
  same_up_to rt (stale ∪ list_to_set names) g2 g'.
Proof.
  intros Hsame Hfeed Hrun.
  eapply same_up_to_after_run; [|exact Hrun].
  eapply feed_stale; eassumption.
Qed.

(** C2, as amended: [load] after [save] on the same path returns a
    learner of the same class with the same [network_parameters],
    [input_names], [target] and [lib], bound to a new executor instantiated
    from the library on device [(target, 0)].  [predict] of the two
    learners returns the same result on the same inputs, for both
    frameworks, when the executor of the original learner is in that same
    state; and also, on a runtime whose executors are determined by their
    inputs, when the original executor differs from the new one only by
    what is bound to names that the call binds again: so after earlier
    calls, whenever the call gives a tensor to every input name. *)
Theorem load_save_round_trip {torch : Torch} {tf : TensorFlow}
    (self : ApacheTVMInferenceLearner) path dev g (w : world) :
  tvm_device (target self) 0 = Ok dev ->
  tvm_graph_executor (lib self) dev = Ok g ->
  exists w1 loaded w2,
    save self path ∅ w = (Ok tt, w1)
    /\ load (cls self) path w1 = (Ok loaded, w2)
    /\ cls loaded = cls self
    /\ network_parameters loaded = network_parameters self
    /\ input_names loaded = input_names self
    /\ target loaded = target self
    /\ lib loaded = lib self
    /\ executors w2 = executors w ++ [g]
    /\ executors w2 !! graph_executor_module loaded = Some g
    /\ (executors w !! graph_executor_module self = Some g ->
        (forall tensors : list Tensor,
            (Pytorch_predict loaded tensors w2).1
            = (Pytorch_predict self tensors w2).1)
        /\ (forall tensors : list tfTensor,
              (Tensorflow_predict loaded tensors w2).1
              = (Tensorflow_predict self tensors w2).1))
    /\ (forall (rt : InputDetermined tvm) stale original,
          executors w !! graph_executor_module self = Some original ->
          same_up_to rt stale original g ->
          (forall tensors : list Tensor,
              stale ⊆ list_to_set
                        (take (length tensors) (input_names self)) ->
              (Pytorch_predict loaded tensors w2).1
              = (Pytorch_predict self tensors w2).1)
          /\ (forall tensors : list tfTensor,
                stale ⊆ list_to_set
                          (take (length tensors) (input_names self)) ->
                (Tensorflow_predict loaded tensors w2).1
                = (Tensorflow_predict self tensors w2).1)).
Proof.
  intros Hdev Hg. eexists. eexists. eexists.
  split; [apply save_ok|]. split.
  { apply (load_ok (cls self) path
             (LearnerMetadata_from_model self (input_names self)
                (target self) ∅)
             (network_parameters self) (input_names self) (target self)
             (lib self) dev g);
      [apply lookup_insert_eq|reflexivity|reflexivity|reflexivity
      |apply lookup_insert_eq|assumption|assumption]. }
  simpl. repeat (split; [reflexivity|]).
  assert (Hnew : (executors w ++ [g]) !! length (executors w) = Some g).
  { rewrite lookup_app_r by reflexivity. rewrite Nat.sub_diag. reflexivity. }
  split; [exact Hnew|]. split.
  - intros Hold.
    assert (Hold' : (executors w ++ [g]) !! graph_executor_module self
                    = Some g)
      by (apply lookup_app_l_Some; exact Hold).
    split; intros tensors.
    + etransitivity;
        [apply (pytorch_predict_result _ tensors g); exact Hnew|].
      symmetry. etransitivity;
        [apply (pytorch_predict_result self tensors g); exact Hold'|].
      reflexivity.
    + etransitivity;
        [apply (tensorflow_predict_result _ tensors g); exact Hnew|].
      symmetry. etransitivity;
        [apply (tensorflow_predict_result self tensors g); exact Hold'|].
      reflexivity.
  - intros rt stale original Hold Hsame.
    assert (Hold' : (executors w ++ [g]) !! graph_executor_module self
                    = Some original)
      by (apply lookup_app_l_Some; exact Hold).
    split; intros tensors Hbound.
    + etransitivity;
        [apply (pytorch_predict_result _ tensors g); exact Hnew|].
      symmetry. etransitivity;
        [apply (pytorch_predict_result self tensors original); exact Hold'|].
      simpl. destruct tensors as [|t0 ts]; [reflexivity|].
      eapply predict_result_same; eassumption.
    + etransitivity;
        [apply (tensorflow_predict_result _ tensors g); exact Hnew|].
      symmetry. etransitivity;
        [apply (tensorflow_predict_result self tensors original);
         exact Hold'|].
      simpl. eapply predict_result_same; eassumption.
Qed.


End Persistence.

(** ** The dispatch table *)

(** C8, as amended: the table holds the keys [PYTORCH] and [TENSORFLOW]
    and no other; the subscript with any other identity raises the
    [KeyError] of that key, and the subscript returns a class exactly for
    the two members. *)
Theorem lookup_unknown_framework (framework : DeepLearningFramework) :
  (TVM_INFERENCE_LEARNERS !! framework = None
   <-> framework <> PYTORCH /\ framework <> TENSORFLOW)
  /\ (framework <> PYTORCH ->
      framework <> TENSORFLOW ->
      lookup_learner framework = Raise (KeyError (framework_repr framework)))
  /\ (forall c,
        lookup_learner framework = Ok c
        <-> (framework = PYTORCH /\ c = PytorchApacheTVMInferenceLearner)
            \/ (framework = TENSORFLOW
                /\ c = TensorflowApacheTVMInferenceLearner)).
Proof.
  assert (Hother : framework <> PYTORCH -> framework <> TENSORFLOW ->
                   TVM_INFERENCE_LEARNERS !! framework = None).
  { intros Hp Ht. unfold TVM_INFERENCE_LEARNERS.
    rewrite lookup_insert_ne by congruence.
    rewrite lookup_insert_ne by congruence.
    apply lookup_empty. }
  split; [|split].
  - split; [|intros [Hp Ht]; apply Hother; assumption].
    intros Hnone. split; intros ->; discriminate.
  - intros Hp Ht. unfold lookup_learner. rewrite (Hother Hp Ht).
    reflexivity.
  - intros c. split.
    + destruct framework as [| |name]; unfold lookup_learner.
      * intros [= <-]. left. split; reflexivity.
      * intros [= <-]. right. split; reflexivity.
      * rewrite Hother by discriminate. discriminate.
    + intros [[-> ->]|[-> ->]]; reflexivity.
Qed.

(** ** The small runtime is determined by its inputs *)

Lemma NoDup_fst_filter {A B} (P : A * B -> Prop) `{!forall x, Decision (P x)}
    (l : list (A * B)) :
  NoDup l.*1 -> NoDup (filter P l).*1.
Proof.
  induction l as [|x l IH]; intros Hl; [constructor|].
  apply NoDup_cons in Hl as [Hx Hl]. specialize (IH Hl).
  destruct (decide (P x)) as [HP|HP].
  - rewrite filter_cons_True by exact HP. simpl. apply NoDup_cons.
    split; [|exact IH]. intros Hin. apply Hx.
    apply list_elem_of_fmap in Hin as (y & Hy & Hin).
    apply list_elem_of_filter in Hin as [_ Hin].
    apply list_elem_of_fmap. exists y. split; assumption.
  - rewrite filter_cons_False by exact HP. exact IH.
Qed.

Lemma sum_set_input_inputs (g g1 : sum_executor) name a :
  sum_set_input g name a = Ok g1 ->
  sum_lib g1 = sum_lib g
  /\ NoDup (sum_inputs g).*1 -> NoDup (sum_inputs g1).*1.
Proof.
  unfold sum_set_input. destruct (bool_decide (name = "")); [discriminate|].
  intros [= <-] [_ Hl]. simpl. apply NoDup_cons. split.
  - intros Hin. apply list_elem_of_fmap in Hin as (y & Hy & Hin).
    apply list_elem_of_filter in Hin as [Hne _]. exact (Hne (eq_sym Hy)).
  - apply NoDup_fst_filter. exact Hl.
Qed.

Lemma sum_set_input_elem_of (g g1 : sum_executor) name a other b :
  sum_set_input g name a = Ok g1 ->
  (other, b) ∈ sum_inputs g1
  <-> (other = name /\ b = a) \/ (other <> name /\ (other, b) ∈ sum_inputs g).
Proof.
  unfold sum_set_input. destruct (bool_decide (name = "")); [discriminate|].
  intros [= <-]. simpl. rewrite elem_of_cons, list_elem_of_filter.
  simpl. split.
  - intros [[= -> ->]|[Hne Hin]]; [left; split; reflexivity|right].
    split; assumption.
  - intros [[-> ->]|[Hne Hin]]; [left; reflexivity|right].
    split; assumption.
Qed.

Lemma sum_list_permutation (zs zs' : list Z) :
  zs ≡ₚ zs' -> sum_list zs = sum_list zs'.
Proof.
  unfold sum_list. induction 1; simpl; lia.
Qed.

Lemma sum_same_up_to_mono stale stale' (g g' : sum_executor) :
  stale ⊆ stale' -> sum_same_up_to stale g g' -> sum_same_up_to stale' g g'.
Proof.
  intros Hsub (Hlib & Hl & Hl' & Hin). repeat split; try assumption;
    apply Hin; intros Hs; apply H; apply Hsub; exact Hs.
Qed.

Lemma sum_same_up_to_set_input stale (g g' : sum_executor) name a :
  sum_same_up_to stale g g' ->
  match sum_set_input g name a, sum_set_input g' name a with
  | Ok g1, Ok g1' => sum_same_up_to (stale ∖ {[name]}) g1 g1'
  | Raise e, Raise e' => e = e'
  | _, _ => False
  end.
Proof.
  intros (Hlib & Hl & Hl' & Hin).
  destruct (sum_set_input g name a) as [g1|e] eqn:Hset,
           (sum_set_input g' name a) as [g1'|e'] eqn:Hset';
    unfold sum_set_input in Hset, Hset';
    destruct (bool_decide (name = "")) eqn:Hname; try discriminate;
    [|congruence].
  assert (Hs : sum_set_input g name a = Ok g1)
    by (unfold sum_set_input; rewrite Hname; exact Hset).
  assert (Hs' : sum_set_input g' name a = Ok g1')
    by (unfold sum_set_input; rewrite Hname; exact Hset').
  split; [|split; [|split]].
  - injection Hset as <-. injection Hset' as <-. exact Hlib.
  - apply (sum_set_input_inputs g g1 name a Hs). split; [|exact Hl].
    injection Hset as <-. reflexivity.
  - apply (sum_set_input_inputs g' g1' name a Hs'). split; [|exact Hl'].
    injection Hset' as <-. reflexivity.
  - intros other b Hother.
    rewrite (sum_set_input_elem_of g g1 name a other b Hs).
    rewrite (sum_set_input_elem_of g' g1' name a other b Hs').
    destruct (decide (other = name)) as [->|Hne].
    + split; (intros [Hsame|[Hne _]]; [left; exact Hsame|congruence]).
    + assert (Hfresh : other ∉ stale) by set_solver.
      specialize (Hin other b Hfresh).
      split; (intros [[Heq _]|[_ Hb]]; [congruence|right]); split;
        try assumption; apply Hin; exact Hb.
Qed.

Lemma sum_same_up_to_run (g g' : sum_executor) :
  sum_same_up_to ∅ g g' ->
  match sum_run g, sum_run g' with
  | Ok g1, Ok g1' => sum_same_outputs g1 g1'
  | Raise e, Raise e' => e = e'
  | _, _ => False
  end.
Proof.
  intros (Hlib & Hl & Hl' & Hin). unfold sum_run, sum_same_outputs. simpl.
  rewrite Hlib. f_equal. apply sum_list_permutation.
  apply Permutation_map. apply NoDup_Permutation.
  - eapply NoDup_fmap_1. exact Hl.
  - eapply NoDup_fmap_1. exact Hl'.
  - intros [name a]. apply Hin. set_solver.
Qed.

Lemma sum_same_up_to_after_set_input stale (g g' g1 : sum_executor) name a :
  sum_same_up_to stale g g' ->
  sum_set_input g name a = Ok g1 ->
  sum_same_up_to (stale ∪ {[name]}) g1 g'.
Proof.
  intros (Hlib & Hl & Hl' & Hin) Hset.
  split; [|split; [|split]].
  - unfold sum_set_input in Hset.
    destruct (bool_decide (name = "")); [discriminate|].
    injection Hset as <-. exact Hlib.
  - apply (sum_set_input_inputs g g1 name a Hset). split; [|exact Hl].
    unfold sum_set_input in Hset.
    destruct (bool_decide (name = "")); [discriminate|].
    injection Hset as <-. reflexivity.
  - exact Hl'.
  - intros other b Hother.
    rewrite (sum_set_input_elem_of g g1 name a other b Hset).
    assert (Hne : other <> name) by set_solver.
    assert (Hfresh : other ∉ stale) by set_solver.
    specialize (Hin other b Hfresh).
    split.
    + intros [[Heq _]|[_ Hb]]; [congruence|]. apply Hin. exact Hb.
    + intros Hb. right. split; [exact Hne|]. apply Hin. exact Hb.
Qed.

Lemma sum_input_determined : InputDetermined sum_tvm.
Proof.
  refine (@Build_InputDetermined sum_tvm sum_same_up_to sum_same_outputs
            _ _ _ _ _ _).
  - exact sum_same_up_to_mono.
  - exact sum_same_up_to_set_input.
  - exact sum_same_up_to_run.
  - intros g g' i sh Hout. simpl. unfold sum_get_output.
    unfold sum_same_outputs in Hout. rewrite Hout. reflexivity.
  - intros stale g g' name a g1.
    exact (sum_same_up_to_after_set_input stale g g' g1 name a).
  - intros stale g g' g1 Hsame [= <-]. exact Hsame.
Defined.

Lemma fresh_executor_same :
  same_up_to sum_input_determined ∅ fresh_executor fresh_executor.
Proof.
  split; [reflexivity|]. split; [constructor|]. split; [constructor|].
  intros name a _. reflexivity.
Qed.

(** What the calls on [array_x] and [array_y] leave in the executor of
    [small_learner] is stale only on its two input names. *)
Lemma used_executor_same :
  same_up_to sum_input_determined
    (∅ ∪ list_to_set (input_names small_learner))
    used_executor fresh_executor.
Proof.
  apply (used_executor_same_up_to sum_input_determined Ok
           (input_names small_learner) [array_x; array_y] ∅
           fresh_executor fresh_executor
           (bound_executor [("y", array_y); ("x", array_x)] 0)
           used_executor fresh_executor_same);
    reflexivity.
Qed.

(** ** The methods at work on the small runtime *)

Lemma predict_array_set_input_then_run_witness :
  exists w',
    _predict_array small_learner (generator_of_list [array_x; array_y])
      small_world
    = (Ok (tvm_outputs small_learner), w')
    /\ calls w'
       = [set_input_call 0 "x" array_x; set_input_call 0 "y" array_y;
          run_call 0].
Proof.
  destruct (predict_array_set_input_then_run small_learner [array_x; array_y]
              fresh_executor _ _ small_world eq_refl eq_refl eq_refl eq_refl)
    as (w' & Hrun & Hcalls & _).
  exists w'. split; [exact Hrun|exact Hcalls].
Defined.

Lemma predict_array_truncates_witness :
  (exists w',
      _predict_array small_learner (generator_of_list [array_x]) small_world
      = (Ok (tvm_outputs small_learner), w')
      /\ calls w' = [set_input_call 0 "x" array_x; run_call 0])
  /\ (exists w',
        _predict_array small_learner
          (generator_of_list [array_x; array_y; array_x]) small_world
        = (Ok (tvm_outputs small_learner), w')
        /\ calls w'
           = [set_input_call 0 "x" array_x; set_input_call 0 "y" array_y;
              run_call 0]).
Proof.
  split.
  - destruct (predict_array_truncates small_learner [array_x]
                fresh_executor _ _ small_world
                ltac:(simpl; lia) eq_refl eq_refl eq_refl)
      as (w' & Hrun & Hcalls & _).
    exists w'. split; [exact Hrun|exact Hcalls].
  - destruct (predict_array_truncates small_learner
                [array_x; array_y; array_x] fresh_executor _ _ small_world
                ltac:(simpl; lia) eq_refl eq_refl eq_refl)
      as (w' & Hrun & Hcalls & _).
    exists w'. split; [exact Hrun|exact Hcalls].
Defined.

Lemma predict_outputs_follow_output_sizes_witness :
  exists w',
    (output_arrays <- _predict_array small_learner
                        (generator_of_list [array_x; array_y]) ;;
     tuple output_arrays) small_world
    = (Ok [filled 112], w')
    /\ shape (filled 112) = [2; 10]
    /\ calls w'
       = [set_input_call 0 "x" array_x; set_input_call 0 "y" array_y;
          run_call 0; nd_empty_call [2; 10]; get_output_call 0 0 [2; 10]].
Proof.
  destruct (predict_outputs_follow_output_sizes small_learner
              [array_x; array_y] fresh_executor _ _ [filled 112] small_world
              eq_refl eq_refl eq_refl eq_refl)
    as (_ & w' & Hrun & _ & _ & _ & Hcalls & _).
  exists w'. split; [exact Hrun|]. split; [reflexivity|exact Hcalls].
Defined.

Lemma convert_device_normalizes_witness :
  _convert_device (DeviceInt 0) = DeviceStr "cpu"
  /\ _convert_device (DeviceInt (-1)) = DeviceStr "cpu"
  /\ _convert_device (DeviceBool true) = DeviceStr "cpu"
  /\ _convert_device (DeviceStr "cuda") = DeviceStr "cuda".
Proof.
  destruct convert_device_normalizes as (Hint & Hzero & Hisint & Hother & _).
  split; [exact Hzero|]. split; [exact (Hint (-1))|].
  split; [exact (Hisint (DeviceBool true) eq_refl)|].
  exact (Hother (DeviceStr "cuda") eq_refl).
Defined.

Lemma pytorch_predict_marshals_witness :
  (exists w',
      Pytorch_predict (torch := plain_torch) small_learner
        [tensor_x; tensor_y] small_world
      = (Ok [on_host (filled 112)], w')
      /\ calls w'
         = [set_input_call 0 "x" array_x; set_input_call 0 "y" array_y;
            run_call 0; nd_empty_call [2; 10]; get_output_call 0 0 [2; 10]])
  /\ get_device (Torch := named_torch) tensor_x = DeviceStr "cuda"
  /\ (exists w',
        Pytorch_predict (torch := named_torch) small_learner
          [tensor_x; tensor_y] small_world
        = (Ok [{| pt_array := filled 112;
                  pt_device := 0;
                  pt_requires_grad := false |}], w')).
Proof.
  split; [|split; [reflexivity|]].
  - destruct (pytorch_predict_marshals (torch := plain_torch) small_learner
                tensor_x [tensor_y] [array_x; array_y] fresh_executor _ _
                [filled 112] [on_host (filled 112)] small_world
                eq_refl eq_refl eq_refl eq_refl eq_refl eq_refl)
      as (w' & Hrun & Hcalls & _).
    exists w'. split; [exact Hrun|exact Hcalls].
  - destruct (pytorch_predict_marshals (torch := named_torch) small_learner
                tensor_x [tensor_y] [array_x; array_y] fresh_executor _ _
                [filled 112]
                [{| pt_array := filled 112;
                    pt_device := 0;
                    pt_requires_grad := false |}] small_world
                eq_refl eq_refl eq_refl eq_refl eq_refl eq_refl)
      as (w' & Hrun & _).
    exists w'. exact Hrun.
Defined.

(** C6, as the claim states it, fails: with two input names and three
    tensors, the third tensor is never converted to an array ([predict]
    returns although its conversion would raise), and only the first two
    are bound. *)
Lemma pytorch_predict_skips_surplus_tensor :
  numpy (Torch := typed_torch)
    (detach (Torch := typed_torch) (cpu (Torch := typed_torch) typed_y))
  = Raise (TypeError "unsupported element type")
  /\ (Pytorch_predict (torch := typed_torch) small_learner
        [typed_x; typed_x; typed_y] small_world).1
     = Ok [{| tt_tensor := on_host (filled 110); tt_numpy_dtype := true |}]
  /\ filter is_set_input_call
       (calls (Pytorch_predict (torch := typed_torch) small_learner
                 [typed_x; typed_x; typed_y] small_world).2)
     = [set_input_call 0 "x" array_x; set_input_call 0 "y" array_x].
Proof.
  split; [reflexivity|]. split; [reflexivity|]. vm_compute. reflexivity.
Qed.

Lemma from_runtime_module_fields_witness :
  exists self w',
    from_runtime_module (tvm := sum_tvm) PytorchApacheTVMInferenceLearner
      small_params (100 : @Module sum_tvm) "cuda" ["x"; "y"] empty_world
    = (Ok self, w')
    /\ executors w' !! graph_executor_module self = Some fresh_executor
    /\ executors w' = [fresh_executor].
Proof.
  destruct (from_runtime_module_fields (tvm := sum_tvm)
              PytorchApacheTVMInferenceLearner small_params
              (100 : @Module sum_tvm) "cuda" ["x"; "y"] empty_world)
    as (_ & _ & Hbuilt).
  exact (Hbuilt ("cuda", 0) fresh_executor eq_refl eq_refl).
Defined.

Lemma load_save_round_trip_witness :
  (exists w1 loaded w2,
      save small_learner "model" ∅ small_world = (Ok tt, w1)
      /\ load PytorchApacheTVMInferenceLearner "model" w1 = (Ok loaded, w2)
      /\ network_parameters loaded = small_params
      /\ input_names loaded = ["x"; "y"]
      /\ target loaded = "llvm"
      /\ (Pytorch_predict (torch := plain_torch) loaded [tensor_x] w2).1
         = (Pytorch_predict (torch := plain_torch) small_learner [tensor_x]
              w2).1)
  /\ (exists w1 loaded w2,
        save small_learner "model" ∅ used_world = (Ok tt, w1)
        /\ load PytorchApacheTVMInferenceLearner "model" w1 = (Ok loaded, w2)
        /\ executors w2 = [used_executor; fresh_executor]
        /\ (Pytorch_predict (torch := plain_torch) loaded
              [tensor_z; tensor_y] w2).1
           = (Pytorch_predict (torch := plain_torch) small_learner
                [tensor_z; tensor_y] w2).1).
Proof.
  split.
  - destruct (load_save_round_trip (torch := plain_torch)
                (tf := plain_tensorflow) small_learner "model" ("llvm", 0)
                fresh_executor small_world eq_refl eq_refl)
      as (w1 & loaded & w2 & Hsave & Hload & _ & Hparams & Hnames & Htarget
          & _ & _ & _ & Hsame & _).
    exists w1, loaded, w2.
    split; [exact Hsave|]. split; [exact Hload|].
    split; [exact Hparams|]. split; [exact Hnames|]. split; [exact Htarget|].
    exact (proj1 (Hsame eq_refl) [tensor_x]).
  - destruct (load_save_round_trip (torch := plain_torch)
                (tf := plain_tensorflow) small_learner "model" ("llvm", 0)
                fresh_executor used_world eq_refl eq_refl)
      as (w1 & loaded & w2 & Hsave & Hload & _ & _ & _ & _
          & _ & Hexecutors & _ & _ & Hused).
    exists w1, loaded, w2.
    split; [exact Hsave|]. split; [exact Hload|].
    split; [exact Hexecutors|].
    apply (proj1 (Hused sum_input_determined _ used_executor eq_refl
                    used_executor_same) [tensor_z; tensor_y]).
    apply (bool_decide_unpack _). vm_compute. exact I.
Defined.

(** C2, as the claim states it, fails: after a call that bound both
    inputs, the original learner still holds the binding of [y], the loaded
    one does not, and a call with the first tensor alone gives different
    outputs. *)
Lemma round_trip_stale_binding :
  exists self loaded,
    (stale_binding_scenario empty_world).1
    = Ok (self, loaded, [on_host (filled 112)], [on_host (filled 105)])
    /\ network_parameters loaded = network_parameters self
    /\ input_names loaded = input_names self
    /\ target loaded = target self
    /\ [on_host (filled 112)] <> [on_host (filled 105)].
Proof.
  eexists. eexists. split; [vm_compute; reflexivity|].
  repeat (split; [reflexivity|]). discriminate.
Qed.



Lemma lookup_unknown_framework_witness :
  TVM_INFERENCE_LEARNERS !! OtherFramework "numpy" = None
  /\ lookup_learner (OtherFramework "numpy") = Raise (KeyError "numpy").
Proof.
  destruct (lookup_unknown_framework (OtherFramework "numpy"))
    as (_ & Hfails & _).
  split; [reflexivity|].
  apply Hfails; discriminate.
Defined.

(** C8, as the claim states it, fails: the subscript with an identity the
    table does not hold raises [KeyError], not
    [UnsupportedFrameworkError]. *)
Lemma lookup_unknown_framework_key_error :
  TVM_INFERENCE_LEARNERS !! OtherFramework "numpy" = None
  /\ lookup_learner (OtherFramework "numpy") = Raise (KeyError "numpy")
  /\ lookup_learner (OtherFramework "numpy")
     <> Raise UnsupportedFrameworkError.
Proof.
  split; [reflexivity|]. split; [reflexivity|]. discriminate.
Qed.

(** * Further properties of the methods *)

(** ** What [_predict_array] touches, whatever happens *)

Section Frame.
Context {tvm : TVM}.

Lemma touches_only_refl gm (w : world) : touches_only gm w w.
Proof.
  exists []. rewrite app_nil_r. repeat split; try reflexivity. constructor.
Qed.

Lemma touches_only_trans gm (w1 w2 w3 : world) :
  touches_only gm w1 w2 -> touches_only gm w2 w3 -> touches_only gm w1 w3.
Proof.
  intros (cs1 & Hc1 & Hf1 & Hl1 & Hm1 & Hn1 & He1)
         (cs2 & Hc2 & Hf2 & Hl2 & Hm2 & Hn2 & He2).
  exists (cs1 ++ cs2). rewrite Hc2, Hc1, app_assoc.
  split; [reflexivity|]. split; [apply Forall_app; split; assumption|].
  split; [congruence|]. split; [congruence|]. split; [congruence|].
  intros i Hi. rewrite (He2 i Hi). apply He1. exact Hi.
Qed.

Lemma touches_only_update gm g cs (w : world) :
  Forall (fun c => is_executor_call gm c = true) cs ->
  touches_only gm w (update_world (<[gm := g]> (executors w)) cs w).
Proof.
  intros Hcs. exists cs. simpl. split; [reflexivity|]. split; [exact Hcs|].
  split; [reflexivity|]. split; [reflexivity|].
  split; [apply length_insert|].
  intros i Hi. apply list_lookup_insert_ne. congruence.
Qed.

Lemma touches_only_log gm cs (w : world) :
  Forall (fun c => is_executor_call gm c = true) cs ->
  touches_only gm w (update_world (executors w) cs w).
Proof.
  intros Hcs. exists cs. simpl. repeat split; try reflexivity. exact Hcs.
Qed.

Lemma set_input_frame gm name a (w : world) :
  touches_only gm w (set_input gm name a w).2.
Proof.
  assert (Hcall : Forall (fun c => is_executor_call gm c = true)
                    [set_input_call gm name a]).
  { constructor; [simpl; apply Nat.eqb_refl|constructor]. }
  unfold set_input, log, read_executor, lift, write_executor.
  unfold bind. simpl.
  destruct (executors w !! gm) as [g|]; simpl.
  - destruct (gm_set_input g name a) as [g'|e]; simpl.
    + apply (touches_only_update gm g' _ w Hcall).
    + apply (touches_only_log gm _ w Hcall).
  - apply (touches_only_log gm _ w Hcall).
Qed.

Lemma run_frame gm (w : world) : touches_only gm w (run gm w).2.
Proof.
  assert (Hcall : Forall (fun c => is_executor_call gm c = true)
                    [run_call gm]).
  { constructor; [simpl; apply Nat.eqb_refl|constructor]. }
  unfold run, log, read_executor, lift, write_executor.
  unfold bind. simpl.
  destruct (executors w !! gm) as [g|]; simpl.
  - destruct (gm_run g) as [g'|e]; simpl.
    + apply (touches_only_update gm g' _ w Hcall).
    + apply (touches_only_log gm _ w Hcall).
  - apply (touches_only_log gm _ w Hcall).
Qed.

Lemma bind_frame {A B} gm (m : M A) (k : A -> M B) (w : world) :
  touches_only gm w (m w).2 ->
  (forall a w1, touches_only gm w1 (k a w1).2) ->
  touches_only gm w (bind m k w).2.
Proof.
  intros Hm Hk. unfold bind. destruct (m w) as [[a|e] w1]; simpl in *.
  - eapply touches_only_trans; [exact Hm|apply Hk].
  - exact Hm.
Qed.

Lemma for_zip_frame {X} (f : X -> result ndarray) gm :
  forall names xs (w : world),
    touches_only gm w
      (for_zip names (map (fun x => lift (f x)) xs) (set_input gm) w).2.
Proof.
  induction names as [|name names IH]; intros xs w; simpl.
  - apply touches_only_refl.
  - destruct xs as [|x xs]; simpl; [apply touches_only_refl|].
    apply bind_frame; [apply touches_only_refl|].
    intros a w1. apply bind_frame; [apply set_input_frame|].
    intros _ w2. apply IH.
Qed.

Lemma predict_array_frame {X}
    (f : X -> result ndarray) (self : ApacheTVMInferenceLearner)
    (xs : list X) (w : world) :
  touches_only (graph_executor_module self) w
    (_predict_array self (map (fun x => lift (f x)) xs) w).2.
Proof.
  unfold _predict_array.
  apply bind_frame; [apply for_zip_frame|].
  intros _ w1. apply bind_frame; [apply run_frame|].
  intros _ w2. apply touches_only_refl.
Qed.

(** X1: whatever the runtime answers, and whether it returns or raises,
    [_predict_array] makes only [set_input] and [run] calls on its own
    executor: it fetches no output, allocates no buffer, writes no file and
    leaves every other executor as it was. *)
Theorem predict_array_touches_only_its_executor {X}
    (f : X -> result ndarray) (self : ApacheTVMInferenceLearner)
    (xs : list X) (w : world) :
  let gm := graph_executor_module self in
  let w' := (_predict_array self (map (fun x => lift (f x)) xs) w).2 in
  exists cs,
    calls w' = calls w ++ cs
    /\ Forall (fun c => is_executor_call gm c = true) cs
    /\ filter is_nd_empty_call cs = []
    /\ libraries w' = libraries w
    /\ metadata_files w' = metadata_files w
    /\ length (executors w') = length (executors w)
    /\ forall i, i <> gm -> executors w' !! i = executors w !! i.
Proof.
  intros gm w'.
  destruct (predict_array_frame f self xs w)
    as (cs & Hcalls & Hcs & Hlibs & Hmds & Hlen & Hothers).
  exists cs. split; [exact Hcalls|]. split; [exact Hcs|].
  split; [|repeat split; assumption].
  clear Hcalls. induction Hcs as [|c cs Hc _ IH]; [reflexivity|].
  rewrite filter_cons_False; [exact IH|].
  destruct c; simpl in *; try discriminate; exact (fun H => H).
Qed.

End Frame.

(** ** When the runtime refuses a call *)

Section Refusals.
Context {tvm : TVM}.

Lemma set_input_refused gm name a g e (w : world) :
  executors w !! gm = Some g ->
  gm_set_input g name a = Raise e ->
  set_input gm name a w
  = (Raise e, update_world (executors w) [set_input_call gm name a] w).
Proof.
  intros Hg Hset. unfold set_input, log, read_executor, lift, write_executor.
  unfold bind. simpl. rewrite Hg, Hset. reflexivity.
Qed.

Lemma run_refused gm g e (w : world) :
  executors w !! gm = Some g ->
  gm_run g = Raise e ->
  run gm w = (Raise e, update_world (executors w) [run_call gm] w).
Proof.
  intros Hg Hrun. unfold run, log, read_executor, lift, write_executor.
  unfold bind. simpl. rewrite Hg, Hrun. reflexivity.
Qed.

Lemma bind_raise {A B} (m : M A) (k : A -> M B) e w w' :
  m w = (Raise e, w') -> bind m k w = (Raise e, w').
Proof. intros Hm. unfold bind. rewrite Hm. reflexivity. Qed.

(** The loop stops at the first item whose conversion or binding fails:
    [outcome] is the failing step of the item at position [length done]. *)
Lemma for_zip_stops {X} (f : X -> result ndarray) gm e :
  forall done name rest xs_done x xs_rest arrays g g1 (w : world),
    executors w !! gm = Some g ->
    length xs_done = length done ->
    mapM f xs_done = Ok arrays ->
    bind_inputs g (combine done arrays) = Ok g1 ->
    (f x = Raise e
     \/ exists a, f x = Ok a /\ gm_set_input g1 name a = Raise e) ->
    for_zip (done ++ name :: rest)
      (map (fun x => lift (f x)) (xs_done ++ x :: xs_rest)) (set_input gm) w
    = (Raise e,
       update_world (<[gm := g1]> (executors w))
         (set_input_calls gm (combine done arrays)
          ++ match f x with
             | Ok a => [set_input_call gm name a]
             | Raise _ => []
             end) w).
Proof.
  induction done as [|n done IH];
    intros name rest xs_done x xs_rest arrays g g1 w Hg Hlen Hconv Hbind Hfail.
  - destruct xs_done; [|discriminate]. simpl in Hconv.
    injection Hconv as <-. simpl in Hbind. injection Hbind as <-.
    rewrite (list_insert_id _ _ _ Hg). simpl.
    destruct Hfail as [Hx|(a & Hx & Hset)]; rewrite Hx.
    + apply bind_raise. unfold lift. rewrite update_world_same; reflexivity.
    + rewrite (bind_ok _ _ a w w) by reflexivity.
      apply bind_raise. apply (set_input_refused _ _ _ _ _ _ Hg Hset).
  - destruct xs_done as [|y xs_done]; [discriminate|].
    simpl in Hlen. injection Hlen as Hlen. simpl in Hconv.
    destruct (f y) as [b|] eqn:Hy; [|discriminate].
    destruct (mapM f xs_done) as [arrays'|] eqn:Hrest; [|discriminate].
    injection Hconv as <-. simpl in Hbind.
    destruct (gm_set_input g n b) as [g'|] eqn:Hset; [|discriminate].
    simpl. rewrite Hy.
    rewrite (bind_ok _ _ b w w) by reflexivity.
    rewrite (bind_ok _ _ tt _ _ (set_input_ok _ _ _ _ _ _ Hg Hset)).
    assert (Hlt : (gm < length (executors w))%nat)
      by (eapply lookup_lt_Some; eassumption).
    rewrite (IH name rest xs_done x xs_rest arrays' g' g1);
      [|simpl; apply list_lookup_insert_eq; assumption
       |assumption|assumption|assumption|assumption].
    rewrite update_world_twice. simpl.
    rewrite list_insert_insert_eq. reflexivity.
Qed.

(** X2: when the runtime refuses the binding at some position,
    [_predict_array] raises that error at once: the earlier bindings stay
    in the executor (nothing is rolled back), the later names are not
    bound, and [run] is not called. *)
Theorem predict_array_stops_at_refused_input
    (self : ApacheTVMInferenceLearner)
    done name rest (arrays_done : list ndarray) a arrays_rest
    g g1 e (w : world) :
  input_names self = done ++ name :: rest ->
  length arrays_done = length done ->
  executors w !! graph_executor_module self = Some g ->
  bind_inputs g (combine done arrays_done) = Ok g1 ->
  gm_set_input g1 name a = Raise e ->
  let gm := graph_executor_module self in
  _predict_array self (generator_of_list (arrays_done ++ a :: arrays_rest)) w
  = (Raise e,
     update_world (<[gm := g1]> (executors w))
       (set_input_calls gm (combine done arrays_done)
        ++ [set_input_call gm name a]) w).
Proof.
  intros Hnames Hlen Hg Hbind Hset gm. unfold _predict_array.
  apply bind_raise. rewrite Hnames.
  change (generator_of_list (arrays_done ++ a :: arrays_rest))
    with (map (fun b : ndarray => lift (Ok b))
              (arrays_done ++ a :: arrays_rest)).
  apply (for_zip_stops Ok gm e done name rest arrays_done a arrays_rest
           arrays_done g g1 w Hg Hlen (mapM_pure _) Hbind).
  right. exists a. split; [reflexivity|exact Hset].
Qed.

(** X3: when [run] fails, [_predict_array] raises its error after all the
    bindings were made; the executor keeps them and no generator of
    outputs is returned. *)
Theorem predict_array_run_fails
    (self : ApacheTVMInferenceLearner) (arrays : list ndarray)
    g g1 e (w : world) :
  executors w !! graph_executor_module self = Some g ->
  bind_inputs g (combine (input_names self) arrays) = Ok g1 ->
  gm_run g1 = Raise e ->
  let gm := graph_executor_module self in
  _predict_array self (generator_of_list arrays) w
  = (Raise e,
     update_world (<[gm := g1]> (executors w))
       (set_input_calls gm (combine (input_names self) arrays)
        ++ [run_call gm]) w).
Proof.
  intros Hg Hbind Hrun gm. unfold _predict_array.
  change (generator_of_list arrays)
    with (map (fun b : ndarray => lift (Ok b)) arrays).
  assert (Hlt : (gm < length (executors w))%nat)
    by (eapply lookup_lt_Some; eassumption).
  rewrite (bind_ok _ _ tt _ _
             (for_zip_set_input Ok gm (input_names self) arrays
                (take (length (input_names self)) arrays) g g1 w Hg
                (mapM_pure _)
                ltac:(rewrite <- combine_firstn_l; exact Hbind))).
  rewrite <- combine_firstn_l.
  apply bind_raise.
  etransitivity.
  - apply (run_refused gm g1 e); [|exact Hrun].
    simpl. apply list_lookup_insert_eq. exact Hlt.
  - rewrite update_world_twice. reflexivity.
Qed.

(** X4: the executor is kept between calls: a second [_predict_array]
    starts from the state the first one left, so a name the second call
    does not bind keeps the array of the first call. *)
Theorem predict_array_twice
    (self : ApacheTVMInferenceLearner) (first second : list ndarray)
    g g1 g2 g3 g4 (w : world) :
  executors w !! graph_executor_module self = Some g ->
  bind_inputs g (combine (input_names self) first) = Ok g1 ->
  gm_run g1 = Ok g2 ->
  bind_inputs g2 (combine (input_names self) second) = Ok g3 ->
  gm_run g3 = Ok g4 ->
  let gm := graph_executor_module self in
  (_predict_array self (generator_of_list first) ;;
   _predict_array self (generator_of_list second)) w
  = (Ok (tvm_outputs self),
     update_world (<[gm := g4]> (executors w))
       ((set_input_calls gm (combine (input_names self) first)
         ++ [run_call gm])
        ++ set_input_calls gm (combine (input_names self) second)
        ++ [run_call gm]) w).
Proof.
  intros Hg Hb1 Hr1 Hb2 Hr2 gm.
  assert (Hlt : (gm < length (executors w))%nat)
    by (eapply lookup_lt_Some; eassumption).
  assert (Hstep : forall (arrays : list ndarray) ga gb gc (w0 : world),
             executors w0 !! gm = Some ga ->
             bind_inputs ga (combine (input_names self) arrays) = Ok gb ->
             gm_run gb = Ok gc ->
             _predict_array self (generator_of_list arrays) w0
             = (Ok (tvm_outputs self),
                update_world (<[gm := gc]> (executors w0))
                  (set_input_calls gm (combine (input_names self) arrays)
                   ++ [run_call gm]) w0)).
  { intros arrays ga gb gc w0 Hga Hgb Hgc.
    change (generator_of_list arrays)
      with (map (fun b : ndarray => lift (Ok b)) arrays).
    rewrite (combine_firstn_l (input_names self) arrays).
    apply (predict_array_steps Ok self arrays
             (take (length (input_names self)) arrays) ga gb gc w0 Hga
             (mapM_pure _)).
    - rewrite <- combine_firstn_l. exact Hgb.
    - exact Hgc. }
  rewrite (bind_ok _ _ _ _ _ (Hstep first g g1 g2 w Hg Hb1 Hr1)).
  etransitivity.
  - apply (Hstep second g2 g3 g4); [|exact Hb2|exact Hr2].
    simpl. apply list_lookup_insert_eq. exact Hlt.
  - rewrite update_world_twice. simpl.
    rewrite list_insert_insert_eq. reflexivity.
Qed.

End Refusals.

(** ** The two [predict] methods *)

Section Frameworks.
Context {tvm : TVM} {torch : Torch} {tf : TensorFlow}.

(** X5: the tensors beyond the number of input names play no part in
    [predict]: they are not converted and the result is that of the call
    without them.  (For PyTorch the learner must have an input name:
    with none, a call without tensors fails on [input_tensors[0]].) *)
Theorem predict_ignores_surplus_tensors
    (self : ApacheTVMInferenceLearner) (w : world) :
  (input_names self <> [] ->
   forall input_tensors : list Tensor,
     Pytorch_predict self input_tensors w
     = Pytorch_predict self
         (take (length (input_names self)) input_tensors) w)
  /\ (forall input_tensors : list tfTensor,
        Tensorflow_predict self input_tensors w
        = Tensorflow_predict self
            (take (length (input_names self)) input_tensors) w).
Proof.
  split.
  - intros Hnames [|t0 ts]; [destruct (input_names self); reflexivity|].
    destruct (input_names self) as [|name names] eqn:Hn; [congruence|].
    unfold Pytorch_predict. simpl take. simpl tuple_first.
    rewrite !(bind_ok _ _ t0 w w) by reflexivity.
    unfold bind. rewrite predict_array_take, Hn.
    simpl length. rewrite firstn_map. reflexivity.
  - intros input_tensors. unfold Tensorflow_predict. unfold bind.
    rewrite predict_array_take, firstn_map. reflexivity.
Qed.

(** X6: when a tensor cannot be converted to an array, [predict] raises
    the error of the conversion; the tensors before it are already bound in
    the executor, the failing one and the later ones are not, and [run] is
    not called. *)
Theorem pytorch_predict_stops_at_failed_conversion
    (self : ApacheTVMInferenceLearner)
    done name rest (tensors_done : list Tensor) t tensors_rest
    arrays g g1 e (w : world) :
  input_names self = done ++ name :: rest ->
  length tensors_done = length done ->
  executors w !! graph_executor_module self = Some g ->
  mapM (fun t => numpy (detach (cpu t))) tensors_done = Ok arrays ->
  bind_inputs g (combine done arrays) = Ok g1 ->
  numpy (detach (cpu t)) = Raise e ->
  let gm := graph_executor_module self in
  Pytorch_predict self (tensors_done ++ t :: tensors_rest) w
  = (Raise e,
     update_world (<[gm := g1]> (executors w))
       (set_input_calls gm (combine done arrays)) w).
Proof.
  intros Hnames Hlen Hg Hconv Hbind Hfail gm. unfold Pytorch_predict.
  assert (Hfirst : exists t0,
             tuple_first (tensors_done ++ t :: tensors_rest) w = (Ok t0, w))
    by (destruct tensors_done; eexists; reflexivity).
  destruct Hfirst as (t0 & Hfirst). rewrite (bind_ok _ _ t0 w w Hfirst).
  apply bind_raise. unfold _predict_array. apply bind_raise.
  rewrite Hnames.
  etransitivity.
  - apply (for_zip_stops (fun t => numpy (detach (cpu t))) gm e done name
             rest tensors_done t tensors_rest arrays g g1 w Hg Hlen Hconv
             Hbind (or_introl Hfail)).
  - rewrite Hfail, app_nil_r. reflexivity.
Qed.

(** X7: when the first tensor reports an integer device index, whatever
    the index, the outputs are moved to the device [cpu]: a tensor that
    sits on accelerator [0] gets its outputs on the host. *)
Theorem pytorch_predict_integer_device_to_cpu
    (self : ApacheTVMInferenceLearner) (t0 : Tensor) (ts : list Tensor)
    arrays g g1 g2 outs (tensors_out : list Tensor) (w : world) :
  let gm := graph_executor_module self in
  let b := batch_size (network_parameters self) in
  let sizes := output_sizes (network_parameters self) in
  isinstance_int (get_device t0) = true ->
  executors w !! gm = Some g ->
  mapM (fun t => numpy (detach (cpu t)))
       (take (length (input_names self)) (t0 :: ts)) = Ok arrays ->
  bind_inputs g (combine (input_names self) arrays) = Ok g1 ->
  gm_run g1 = Ok g2 ->
  mapM (fetch_output g2 b) (enumerate sizes) = Ok outs ->
  mapM (fun o => to (from_numpy o) (DeviceStr "cpu")) outs = Ok tensors_out ->
  Pytorch_predict self (t0 :: ts) w
  = (Ok tensors_out,
     update_world (<[gm := g2]> (executors w))
       ((set_input_calls gm (combine (input_names self) arrays)
         ++ [run_call gm])
        ++ output_calls gm b (enumerate sizes)) w).
Proof.
  intros gm b sizes Hint Hg Harrays Hbind Hrun Houts Hpost.
  assert (Hlt : (gm < length (executors w))%nat)
    by (eapply lookup_lt_Some; eassumption).
  unfold Pytorch_predict. simpl tuple_first.
  rewrite (bind_ok _ _ t0 w w) by reflexivity.
  unfold _convert_device. rewrite Hint.
  erewrite bind_ok.
  2:{ apply (predict_array_steps (fun t => numpy (detach (cpu t))) self
               (t0 :: ts) arrays g g1 g2 w Hg); assumption. }
  erewrite (tuple_tvm_outputs
              (fun o => to (from_numpy o) (DeviceStr "cpu")) self g2).
  - rewrite update_world_twice. reflexivity.
  - simpl. apply list_lookup_insert_eq. assumption.
  - eapply mapM_converted; eassumption.
Qed.

Lemma tuple_map_stops {E T} (k : E -> M T) (r : E -> result T)
    (cs : E -> list call) (P : world -> Prop) err :
  (forall e w, P w -> k e w = (r e, update_world (executors w) (cs e) w)) ->
  (forall w l, P w -> P (update_world (executors w) l w)) ->
  forall done entry rest ts w,
    P w ->
    mapM r done = Ok ts ->
    r entry = Raise err ->
    tuple (map k (done ++ entry :: rest)) w
    = (Raise err,
       update_world (executors w) (flat_map cs (done ++ [entry])) w).
Proof.
  intros Hk HP. induction done as [|e done IH];
    intros entry rest ts w Hw Hts Herr.
  - simpl. apply bind_raise. rewrite (Hk entry w Hw), Herr, app_nil_r.
    reflexivity.
  - simpl in Hts. destruct (r e) as [t|] eqn:He; [|discriminate].
    destruct (mapM r done) as [ts'|] eqn:Hrest; [|discriminate].
    simpl.
    rewrite (bind_ok _ _ t w (update_world (executors w) (cs e) w))
      by (rewrite Hk, He; [reflexivity|assumption]).
    apply bind_raise.
    rewrite (IH entry rest ts' _ (HP _ _ Hw) eq_refl Herr).
    rewrite update_world_twice. reflexivity.
Qed.

(** X8: the outputs are fetched and converted one at a time: when fetching
    or converting an output fails, [predict] raises that error and the
    outputs after it are never asked from the runtime. *)
Theorem pytorch_predict_stops_at_failed_output
    (self : ApacheTVMInferenceLearner) (t0 : Tensor) (ts : list Tensor)
    arrays g g1 g2 done entry rest converted e (w : world) :
  let gm := graph_executor_module self in
  let b := batch_size (network_parameters self) in
  let post := fun o => to (from_numpy o) (_convert_device (get_device t0)) in
  executors w !! gm = Some g ->
  mapM (fun t => numpy (detach (cpu t)))
       (take (length (input_names self)) (t0 :: ts)) = Ok arrays ->
  bind_inputs g (combine (input_names self) arrays) = Ok g1 ->
  gm_run g1 = Ok g2 ->
  enumerate (output_sizes (network_parameters self))
  = done ++ entry :: rest ->
  mapM (converted_output post g2 b) done = Ok converted ->
  converted_output post g2 b entry = Raise e ->
  Pytorch_predict self (t0 :: ts) w
  = (Raise e,
     update_world (<[gm := g2]> (executors w))
       ((set_input_calls gm (combine (input_names self) arrays)
         ++ [run_call gm])
        ++ output_calls gm b (done ++ [entry])) w).
Proof.
  intros gm b post Hg Harrays Hbind Hrun Hsizes Hdone Hfail.
  assert (Hlt : (gm < length (executors w))%nat)
    by (eapply lookup_lt_Some; eassumption).
  unfold Pytorch_predict. simpl tuple_first.
  rewrite (bind_ok _ _ t0 w w) by reflexivity.
  erewrite bind_ok.
  2:{ apply (predict_array_steps (fun t => numpy (detach (cpu t))) self
               (t0 :: ts) arrays g g1 g2 w Hg); assumption. }
  unfold tvm_outputs. rewrite map_map, Hsizes.
  etransitivity.
  - eapply (tuple_map_stops _ (converted_output post g2 b)
              (fun entry => output_calls gm b [entry])
              (fun w => executors w !! gm = Some g2) e).
    + intros [i sz] w0 Hw0.
      apply (converted_output_step post _ g2 _ (i, sz) w0 Hw0).
    + intros w0 l Hw0. exact Hw0.
    + simpl. apply list_lookup_insert_eq. assumption.
    + exact Hdone.
    + exact Hfail.
  - rewrite update_world_twice. reflexivity.
Qed.

Lemma mapM_map_pure {A B} (f : A -> B) (xs : list A) :
  mapM (fun x => Ok (f x)) xs = Ok (map f xs).
Proof. induction xs as [|x xs IH]; simpl; [|rewrite IH]; reflexivity. Qed.

(** X9: the TensorFlow [predict] binds the arrays of the tensors to the
    input names, position by position, runs once and returns the outputs
    as tensors, in the order of [output_sizes]; it neither looks at the
    first tensor nor at any device, so a call without tensors binds
    nothing and still runs. *)
Theorem tensorflow_predict_marshals
    (self : ApacheTVMInferenceLearner) (input_tensors : list tfTensor)
    g g1 g2 outs (w : world) :
  let gm := graph_executor_module self in
  let b := batch_size (network_parameters self) in
  let sizes := output_sizes (network_parameters self) in
  let bindings := combine (input_names self) (map tf_numpy input_tensors) in
  executors w !! gm = Some g ->
  bind_inputs g bindings = Ok g1 ->
  gm_run g1 = Ok g2 ->
  mapM (fetch_output g2 b) (enumerate sizes) = Ok outs ->
  Tensorflow_predict self input_tensors w
  = (Ok (map convert_to_tensor outs),
     update_world (<[gm := g2]> (executors w))
       ((set_input_calls gm bindings ++ [run_call gm])
        ++ output_calls gm b (enumerate sizes)) w).
Proof.
  intros gm b sizes bindings Hg Hbind Hrun Houts.
  assert (Hlt : (gm < length (executors w))%nat)
    by (eapply lookup_lt_Some; eassumption).
  unfold Tensorflow_predict.
  change (map (fun input_tensor : tfTensor => ret (tf_numpy input_tensor))
              input_tensors)
    with (map (fun t : tfTensor => lift (Ok (tf_numpy t))) input_tensors).
  assert (Hcomb : combine (input_names self)
                    (map tf_numpy
                       (take (length (input_names self)) input_tensors))
                  = bindings).
  { rewrite <- firstn_map. symmetry. apply combine_firstn_l. }
  erewrite bind_ok.
  2:{ apply (predict_array_steps (fun t => Ok (tf_numpy t)) self
               input_tensors
               (map tf_numpy
                  (take (length (input_names self)) input_tensors))
               g g1 g2 w Hg); [apply mapM_map_pure| |exact Hrun].
      rewrite Hcomb. exact Hbind. }
  rewrite Hcomb.
  change (fun next_output : M ndarray =>
            output_array <- next_output ;;
            ret (convert_to_tensor output_array))
    with (fun next_output : M ndarray =>
            output_array <- next_output ;;
            lift (Ok (convert_to_tensor output_array))).
  erewrite (tuple_tvm_outputs (fun o => Ok (convert_to_tensor o)) self g2).
  - rewrite update_world_twice. reflexivity.
  - simpl. apply list_lookup_insert_eq. assumption.
  - eapply mapM_converted; [exact Houts|apply mapM_map_pure].
Qed.

End Frameworks.

(** ** Building, saving and loading learners *)

Section Lifecycle.
Context {tvm : TVM}.

(** X10: when the runtime cannot resolve the device,
    [from_runtime_module] raises that error without instantiating the
    library; when the library cannot be instantiated it raises that error.
    In both cases no executor is created. *)
Theorem from_runtime_module_fails c params l target_device names
    (w : world) :
  (forall e,
      tvm_device target_device 0 = Raise e ->
      from_runtime_module c params l target_device names w
      = (Raise e,
         update_world (executors w) [tvm_device_call target_device 0] w))
  /\ (forall dev e,
        tvm_device target_device 0 = Ok dev ->
        tvm_graph_executor l dev = Raise e ->
        from_runtime_module c params l target_device names w
        = (Raise e,
           update_world (executors w)
             [tvm_device_call target_device 0; GraphModule_call l dev] w)).
Proof.
  split.
  - intros e Hdev.
    unfold from_runtime_module, device, log, lift, str, update_world.
    unfold bind. simpl. rewrite Hdev. reflexivity.
  - intros dev e Hdev Hg.
    unfold from_runtime_module, device, new_GraphModule, log, lift, str,
      update_world.
    unfold bind. simpl. rewrite Hdev. simpl. rewrite Hg. simpl.
    rewrite <- app_assoc. reflexivity.
Qed.

Lemma from_runtime_module_inv c params l target_device names self
    (w w' : world) :
  from_runtime_module c params l target_device names w = (Ok self, w') ->
  exists dev g,
    tvm_device target_device 0 = Ok dev
    /\ tvm_graph_executor l dev = Ok g
    /\ graph_executor_module self = length (executors w)
    /\ executors w' = executors w ++ [g].
Proof.
  unfold from_runtime_module, device, new_GraphModule, new_executor, log,
    lift, ret, str.
  unfold bind. simpl.
  destruct (tvm_device target_device 0) as [dev|e] eqn:Hdev; simpl;
    [|discriminate].
  destruct (tvm_graph_executor l dev) as [g|e] eqn:Hg; simpl;
    [|discriminate].
  intros [= <- <-]. exists dev, g. repeat split; assumption || reflexivity.
Qed.

(** X11: two learners built one after the other never share an executor:
    their references differ, and whatever [_predict_array] does on one of
    them leaves the executor of the other as it was. *)
Theorem learners_do_not_share_an_executor
    c1 params1 l1 target1 names1 c2 params2 l2 target2 names2
    (a b : ApacheTVMInferenceLearner) (w w1 w2 : world) :
  from_runtime_module c1 params1 l1 target1 names1 w = (Ok a, w1) ->
  from_runtime_module c2 params2 l2 target2 names2 w1 = (Ok b, w2) ->
  graph_executor_module a <> graph_executor_module b
  /\ (forall X (f : X -> result ndarray) xs,
        executors (_predict_array a (map (fun x => lift (f x)) xs) w2).2
          !! graph_executor_module b
        = executors w2 !! graph_executor_module b)
  /\ (forall X (f : X -> result ndarray) xs,
        executors (_predict_array b (map (fun x => lift (f x)) xs) w2).2
          !! graph_executor_module a
        = executors w2 !! graph_executor_module a).
Proof.
  intros Ha Hb.
  destruct (from_runtime_module_inv _ _ _ _ _ _ _ _ Ha)
    as (dev1 & g1 & _ & _ & Hrefa & Hex1).
  destruct (from_runtime_module_inv _ _ _ _ _ _ _ _ Hb)
    as (dev2 & g2 & _ & _ & Hrefb & _).
  assert (Hne : graph_executor_module a <> graph_executor_module b).
  { rewrite Hrefa, Hrefb, Hex1, length_app. simpl. lia. }
  split; [exact Hne|]. split; intros X f xs.
  - destruct (predict_array_frame f a xs w2) as (_ & _ & _ & _ & _ & _ & H).
    apply H. congruence.
  - destruct (predict_array_frame f b xs w2) as (_ & _ & _ & _ & _ & _ & H).
    apply H. exact Hne.
Qed.

Lemma save_ok_kwargs (self : ApacheTVMInferenceLearner) path kwargs
    (w : world) :
  "input_names" ∉ dom kwargs ->
  "target" ∉ dom kwargs ->
  save self path kwargs w
  = (Ok tt,
     {| executors := executors w;
        libraries :=
          <[path_join path TVM_FILENAMES_engine := lib self]> (libraries w);
        metadata_files :=
          <[path := LearnerMetadata_from_model self (input_names self)
                      (target self) kwargs]> (metadata_files w);
        calls :=
          calls w
          ++ [export_library_call (lib self)
                (path_join path TVM_FILENAMES_engine)] |}).
Proof.
  intros Hn Ht. unfold save. rewrite bool_decide_eq_false_2; [reflexivity|].
  intros [H|H]; [exact (Hn H)|exact (Ht H)].
Qed.

(** X12: when the extra keywords hold [input_names] or [target], [save]
    raises the [TypeError] of a keyword given twice before anything is
    written: no metadata record, no engine file, no call on the runtime.
    Whatever the keywords, [save] leaves the executors as they were. *)
Theorem save_refuses_clashing_keywords
    (self : ApacheTVMInferenceLearner) path kwargs (w : world) :
  ("input_names" ∈ dom kwargs \/ "target" ∈ dom kwargs ->
   save self path kwargs w
   = (Raise (TypeError "got multiple values for keyword argument"), w))
  /\ executors (save self path kwargs w).2 = executors w.
Proof.
  destruct (decide ("input_names" ∈ dom kwargs \/ "target" ∈ dom kwargs))
    as [Hclash|Hfree].
  - assert (Hsave : save self path kwargs w
                    = (Raise (TypeError
                                "got multiple values for keyword argument"),
                       w)).
    { unfold save. rewrite bool_decide_eq_true_2 by exact Hclash.
      reflexivity. }
    rewrite Hsave. split; [intros _|]; reflexivity.
  - split; [intros Hclash; destruct (Hfree Hclash)|].
    rewrite (save_ok_kwargs self path kwargs w);
      [reflexivity| |]; intros H; apply Hfree; [left|right]; exact H.
Qed.

(** X13: the class of a loaded learner is the class [load] is called on,
    not the class of the learner that was saved, and the extra keywords of
    [save] play no part: [load] returns a learner of the class asked for
    with the saved [network_parameters], [input_names], [lib] and
    [target], bound to the next free executor. *)
Theorem load_after_save_any_class_and_keywords
    c (self : ApacheTVMInferenceLearner) path kwargs dev g (w : world) :
  "input_names" ∉ dom kwargs ->
  "target" ∉ dom kwargs ->
  tvm_device (target self) 0 = Ok dev ->
  tvm_graph_executor (lib self) dev = Ok g ->
  exists w',
    (save self path kwargs ;; load c path) w
    = (Ok {| cls := c;
             network_parameters := network_parameters self;
             graph_executor_module := length (executors w);
             input_names := input_names self;
             lib := lib self;
             target := target self |}, w')
    /\ executors w' = executors w ++ [g].
Proof.
  intros Hn Ht Hdev Hg. eexists.
  rewrite (bind_ok _ _ tt _ _ (save_ok_kwargs self path kwargs w Hn Ht)).
  erewrite (load_ok c path
              (LearnerMetadata_from_model self (input_names self)
                 (target self) kwargs)
              (network_parameters self) (input_names self) (target self)
              (lib self) dev g);
    [split; reflexivity
    |apply lookup_insert_eq|reflexivity|reflexivity|reflexivity
    |apply lookup_insert_eq|assumption|assumption].
Qed.

(** X14: a second [save] on a path replaces the first: [load] returns the
    fields of the learner saved last. *)
Theorem last_save_wins c (a b : ApacheTVMInferenceLearner) path dev g
    (w : world) :
  tvm_device (target b) 0 = Ok dev ->
  tvm_graph_executor (lib b) dev = Ok g ->
  exists w',
    (save a path ∅ ;; save b path ∅ ;; load c path) w
    = (Ok {| cls := c;
             network_parameters := network_parameters b;
             graph_executor_module := length (executors w);
             input_names := input_names b;
             lib := lib b;
             target := target b |}, w').
Proof.
  intros Hdev Hg. eexists.
  rewrite (bind_ok _ _ tt _ _ (save_ok a path w)).
  rewrite (bind_ok _ _ tt _ _ (save_ok b path _)).
  erewrite (load_ok c path
              (LearnerMetadata_from_model b (input_names b) (target b) ∅)
              (network_parameters b) (input_names b) (target b)
              (lib b) dev g);
    [reflexivity
    |apply lookup_insert_eq|reflexivity|reflexivity|reflexivity
    |apply lookup_insert_eq|assumption|assumption].
Qed.

(** X15: [load] returns a learner only when the directory holds a
    metadata record with [network_parameters], [input_names] and [target]
    and holds the engine file, and the runtime resolved device
    [(target, 0)] and instantiated the loaded library on it; the learner
    then carries exactly these values, and the one executor that was added
    is that instantiation. *)
Theorem load_succeeds_only_if c path (self : ApacheTVMInferenceLearner)
    (w w' : world) :
  load c path w = (Ok self, w') ->
  exists md params names target_device l dev g,
    metadata_files w !! path = Some md
    /\ md_network_parameters md = Some params
    /\ md_input_names md = Some names
    /\ md_target md = Some target_device
    /\ libraries w !! path_join path TVM_FILENAMES_engine = Some l
    /\ tvm_device target_device 0 = Ok dev
    /\ tvm_graph_executor l dev = Ok g
    /\ self = {| cls := c;
                 network_parameters := params;
                 graph_executor_module := length (executors w);
                 input_names := names;
                 lib := l;
                 target := target_device |}
    /\ executors w' = executors w ++ [g].
Proof.
  intros Hload. pose proof Hload as Hsteps. revert Hsteps.
  unfold load, LearnerMetadata_read, load_module, log.
  unfold bind. simpl.
  destruct (metadata_files w !! path) as [md|] eqn:Hmd; simpl;
    [|discriminate].
  destruct (md_network_parameters md) as [params|] eqn:Hparams; simpl;
    [|discriminate].
  destruct (libraries w !! path_join path TVM_FILENAMES_engine)
    as [l|] eqn:Hlib; simpl; [|discriminate].
  destruct (md_target md) as [target_device|] eqn:Htarget; simpl;
    [|discriminate].
  destruct (md_input_names md) as [names|] eqn:Hnames; simpl;
    [|discriminate].
  intros Hbuilt.
  destruct (from_runtime_module_inv _ _ _ _ _ _ _ _ Hbuilt)
    as (dev & g & Hdev & Hg & _).
  exists md, params, names, target_device, l, dev, g.
  rewrite (load_ok c path md params names target_device l dev g w
             Hmd Hparams Hnames Htarget Hlib Hdev Hg) in Hload.
  injection Hload as <- <-.
  repeat split; reflexivity || assumption.
Qed.

(** X16: [load] only reads the directory: whatever happens, the stored
    metadata and engine files are as before and every executor that
    existed is unchanged; when [load] raises, no executor was added. *)
Theorem load_only_reads c path (w : world) :
  libraries (load c path w).2 = libraries w
  /\ metadata_files (load c path w).2 = metadata_files w
  /\ (forall i g,
        executors w !! i = Some g -> executors (load c path w).2 !! i = Some g)
  /\ ((forall self, (load c path w).1 <> Ok self) ->
      executors (load c path w).2 = executors w).
Proof.
  unfold load, LearnerMetadata_read, load_module, log, from_runtime_module,
    device, new_GraphModule, new_executor, lift, ret, str.
  unfold bind. simpl.
  destruct (metadata_files w !! path) as [md|]; simpl;
    [|repeat split; trivial].
  destruct (md_network_parameters md) as [params|]; simpl;
    [|repeat split; trivial].
  destruct (libraries w !! path_join path TVM_FILENAMES_engine) as [l|]; simpl;
    [|repeat split; trivial].
  destruct (md_target md) as [target_device|]; simpl;
    [|repeat split; trivial].
  destruct (md_input_names md) as [names|]; simpl; [|repeat split; trivial].
  destruct (tvm_device target_device 0) as [dev|]; simpl;
    [|repeat split; trivial].
  destruct (tvm_graph_executor l dev) as [g|]; simpl;
    [|repeat split; trivial].
  split; [reflexivity|]. split; [reflexivity|]. split.
  - intros i g0 Hi. apply lookup_app_l_Some. exact Hi.
  - intros Hfails. destruct (Hfails _ eq_refl).
Qed.

(** X17: the order of the failures of [load].  Without the metadata
    record it raises [ArtifactNotFoundError] before any call on the
    runtime, even when the engine file is there.  The fields [target] and
    [input_names] are read after the engine file was loaded: a record
    without one of them raises the [KeyError] of the first missing one, and
    no device is asked from the runtime. *)
Theorem load_failure_order c path (w : world) :
  (metadata_files w !! path = None ->
   load c path w = (Raise ArtifactNotFoundError, w))
  /\ (forall md params l,
        metadata_files w !! path = Some md ->
        md_network_parameters md = Some params ->
        libraries w !! path_join path TVM_FILENAMES_engine = Some l ->
        md_target md = None ->
        load c path w
        = (Raise (KeyError "target"),
           update_world (executors w)
             [load_module_call (path_join path TVM_FILENAMES_engine)] w))
  /\ (forall md params l target_device,
        metadata_files w !! path = Some md ->
        md_network_parameters md = Some params ->
        libraries w !! path_join path TVM_FILENAMES_engine = Some l ->
        md_target md = Some target_device ->
        md_input_names md = None ->
        load c path w
        = (Raise (KeyError "input_names"),
           update_world (executors w)
             [load_module_call (path_join path TVM_FILENAMES_engine)] w)).
Proof.
  unfold load, LearnerMetadata_read, load_module, log.
  split; [|split].
  - intros Hmd. unfold bind. rewrite Hmd. reflexivity.
  - intros md params l Hmd Hparams Hlib Htarget.
    unfold bind. simpl. rewrite Hmd, Hparams. simpl.
    rewrite Hlib, Htarget. reflexivity.
  - intros md params l target_device Hmd Hparams Hlib Htarget Hnames.
    unfold bind. simpl. rewrite Hmd, Hparams. simpl.
    rewrite Hlib, Htarget. simpl. rewrite Hnames. reflexivity.
Qed.

End Lifecycle.

(** X18: [_convert_device] never returns an integer, and converting twice
    is converting once. *)
Theorem convert_device_idempotent (d : device_id) :
  isinstance_int (_convert_device d) = false
  /\ _convert_device (_convert_device d) = _convert_device d.
Proof.
  unfold _convert_device. destruct (isinstance_int d) eqn:Hd.
  - split; reflexivity.
  - rewrite Hd. split; reflexivity.
Qed.

(** ** These properties at work on the small runtimes *)

Lemma predict_array_stops_at_refused_input_witness :
  _predict_array misnamed_learner
    (generator_of_list [array_x; array_y; array_x]) small_world
  = (Raise UnknownInputName,
     update_world [bound_executor [("x", array_x)] 0]
       [set_input_call 0 "x" array_x; set_input_call 0 "" array_y]
       small_world).
Proof.
  exact (predict_array_stops_at_refused_input misnamed_learner
           ["x"] "" ["z"] [array_x] array_y [array_x]
           fresh_executor (bound_executor [("x", array_x)] 0)
           UnknownInputName small_world
           eq_refl eq_refl eq_refl eq_refl eq_refl).
Defined.

Lemma predict_array_run_fails_witness :
  _predict_array strict_learner (generator_of_list []) strict_world
  = (Raise ExecutionFault,
     update_world [fresh_executor : @GraphModule strict_tvm] [run_call 0]
       strict_world).
Proof.
  exact (predict_array_run_fails strict_learner [] fresh_executor
           fresh_executor ExecutionFault strict_world
           eq_refl eq_refl eq_refl).
Defined.

Lemma predict_array_twice_witness :
  (_predict_array small_learner (generator_of_list [array_x; array_y]) ;;
   _predict_array small_learner (generator_of_list [array_x])) small_world
  = (Ok (tvm_outputs small_learner),
     update_world
       [bound_executor [("x", array_x); ("y", array_y)] 112]
       [set_input_call 0 "x" array_x; set_input_call 0 "y" array_y;
        run_call 0; set_input_call 0 "x" array_x; run_call 0]
       small_world).
Proof.
  exact (predict_array_twice small_learner [array_x; array_y] [array_x]
           fresh_executor
           (bound_executor [("y", array_y); ("x", array_x)] 0)
           (bound_executor [("y", array_y); ("x", array_x)] 112)
           (bound_executor [("x", array_x); ("y", array_y)] 112)
           (bound_executor [("x", array_x); ("y", array_y)] 112)
           small_world eq_refl eq_refl eq_refl eq_refl eq_refl).
Defined.

Lemma predict_ignores_surplus_tensors_witness :
  input_names small_learner <> []
  /\ Pytorch_predict (torch := plain_torch) small_learner
       [tensor_x; tensor_y; tensor_x] small_world
     = Pytorch_predict (torch := plain_torch) small_learner
         [tensor_x; tensor_y] small_world.
Proof.
  assert (Hnames : input_names small_learner <> []) by discriminate.
  split; [exact Hnames|].
  exact (proj1 (predict_ignores_surplus_tensors (torch := plain_torch)
                  (tf := plain_tensorflow) small_learner small_world)
           Hnames [tensor_x; tensor_y; tensor_x]).
Defined.

Lemma pytorch_predict_stops_at_failed_conversion_witness :
  Pytorch_predict (torch := typed_torch) small_learner [typed_x; typed_y]
    small_world
  = (Raise (TypeError "unsupported element type"),
     update_world [bound_executor [("x", array_x)] 0]
       [set_input_call 0 "x" array_x] small_world).
Proof.
  exact (pytorch_predict_stops_at_failed_conversion (torch := typed_torch)
           small_learner ["x"] "y" [] [typed_x] typed_y [] [array_x]
           fresh_executor (bound_executor [("x", array_x)] 0)
           (TypeError "unsupported element type") small_world
           eq_refl eq_refl eq_refl eq_refl eq_refl eq_refl).
Defined.

Lemma pytorch_predict_integer_device_to_cpu_witness :
  get_device (Torch := plain_torch) tensor_x = DeviceInt 0
  /\ Pytorch_predict (torch := plain_torch) small_learner
       [tensor_x; tensor_y] small_world
     = (Ok [on_host (filled 112)],
        update_world
          [bound_executor [("y", array_y); ("x", array_x)] 112]
          [set_input_call 0 "x" array_x; set_input_call 0 "y" array_y;
           run_call 0; nd_empty_call [2; 10]; get_output_call 0 0 [2; 10]]
          small_world).
Proof.
  split; [reflexivity|].
  exact (pytorch_predict_integer_device_to_cpu (torch := plain_torch)
           small_learner tensor_x [tensor_y] [array_x; array_y]
           fresh_executor
           (bound_executor [("y", array_y); ("x", array_x)] 0)
           (bound_executor [("y", array_y); ("x", array_x)] 112)
           [filled 112] [on_host (filled 112)] small_world
           eq_refl eq_refl eq_refl eq_refl eq_refl eq_refl eq_refl).
Defined.

Lemma pytorch_predict_stops_at_failed_output_witness :
  Pytorch_predict (torch := plain_torch) two_output_learner
    [tensor_x; tensor_y] small_world
  = (Raise ExecutionFault,
     update_world
       [bound_executor [("y", array_y); ("x", array_x)] 112]
       [set_input_call 0 "x" array_x; set_input_call 0 "y" array_y;
        run_call 0; nd_empty_call [2; 10]; get_output_call 0 0 [2; 10];
        nd_empty_call [2; 3]; get_output_call 0 1 [2; 3]]
       small_world).
Proof.
  exact (pytorch_predict_stops_at_failed_output (torch := plain_torch)
           two_output_learner tensor_x [tensor_y] [array_x; array_y]
           fresh_executor
           (bound_executor [("y", array_y); ("x", array_x)] 0)
           (bound_executor [("y", array_y); ("x", array_x)] 112)
           [(0%nat, [10])] (1%nat, [3]) [] [on_host (filled 112)]
           ExecutionFault small_world
           eq_refl eq_refl eq_refl eq_refl eq_refl eq_refl eq_refl).
Defined.

Lemma tensorflow_predict_marshals_witness :
  Tensorflow_predict (tf := plain_tensorflow) small_learner [] small_world
  = (Ok [filled 100],
     update_world [bound_executor [] 100]
       [run_call 0; nd_empty_call [2; 10]; get_output_call 0 0 [2; 10]]
       small_world).
Proof.
  exact (tensorflow_predict_marshals (tf := plain_tensorflow) small_learner
           [] fresh_executor fresh_executor (bound_executor [] 100)
           [filled 100] small_world eq_refl eq_refl eq_refl eq_refl).
Defined.

Lemma from_runtime_module_fails_witness :
  from_runtime_module (tvm := strict_tvm) PytorchApacheTVMInferenceLearner
    small_params (100 : @Module strict_tvm) "tpu" ["x"; "y"] strict_world
  = (Raise DeviceResolutionError,
     update_world (executors strict_world) [tvm_device_call "tpu" 0]
       strict_world)
  /\ from_runtime_module (tvm := strict_tvm) PytorchApacheTVMInferenceLearner
       small_params (100 : @Module strict_tvm) "cuda" ["x"; "y"] strict_world
     = (Raise ExecutionFault,
        update_world (executors strict_world)
          [tvm_device_call "cuda" 0;
           GraphModule_call (100 : @Module strict_tvm)
             (("cuda", 0) : @Device strict_tvm)]
          strict_world).
Proof.
  split.
  - exact (proj1 (from_runtime_module_fails (tvm := strict_tvm)
                    PytorchApacheTVMInferenceLearner small_params
                    (100 : @Module strict_tvm) "tpu" ["x"; "y"] strict_world)
             DeviceResolutionError eq_refl).
  - exact (proj2 (from_runtime_module_fails (tvm := strict_tvm)
                    PytorchApacheTVMInferenceLearner small_params
                    (100 : @Module strict_tvm) "cuda" ["x"; "y"] strict_world)
             (("cuda", 0) : @Device strict_tvm) ExecutionFault
             eq_refl eq_refl).
Defined.

Lemma learners_do_not_share_an_executor_witness :
  graph_executor_module small_learner <> graph_executor_module second_learner
  /\ executors
       (_predict_array small_learner
          (map (fun a : ndarray => lift (Ok a)) [array_x; array_y])
          two_learner_world).2
     !! graph_executor_module second_learner
     = Some second_executor.
Proof.
  destruct (learners_do_not_share_an_executor (tvm := sum_tvm)
              PytorchApacheTVMInferenceLearner small_params
              (100 : @Module sum_tvm) "llvm" ["x"; "y"]
              TensorflowApacheTVMInferenceLearner small_params
              (7 : @Module sum_tvm) "cuda" ["x"]
              small_learner second_learner empty_world _ two_learner_world
              eq_refl eq_refl)
    as (Hne & Hkept & _).
  split; [exact Hne|].
  rewrite (Hkept ndarray Ok [array_x; array_y]). reflexivity.
Defined.

Lemma save_refuses_clashing_keywords_witness :
  save small_learner "model" {[ "target" := "cuda" ]} small_world
  = (Raise (TypeError "got multiple values for keyword argument"),
     small_world).
Proof.
  destruct (save_refuses_clashing_keywords small_learner "model"
              {[ "target" := "cuda" ]} small_world) as (Hrefused & _).
  apply Hrefused. apply (bool_decide_unpack _). vm_compute. exact I.
Defined.

Lemma load_after_save_any_class_and_keywords_witness :
  exists w',
    (save small_learner "model" {[ "note" := "first" ]} ;;
     load TensorflowApacheTVMInferenceLearner "model") small_world
    = (Ok {| cls := TensorflowApacheTVMInferenceLearner;
             network_parameters := small_params;
             graph_executor_module := 1;
             input_names := ["x"; "y"];
             lib := (100 : @Module sum_tvm);
             target := "llvm" |}, w')
    /\ executors w' = [fresh_executor; fresh_executor].
Proof.
  apply (load_after_save_any_class_and_keywords (tvm := sum_tvm)
           TensorflowApacheTVMInferenceLearner small_learner "model"
           {[ "note" := "first" ]} (("llvm", 0) : @Device sum_tvm)
           fresh_executor small_world);
    [apply (bool_decide_unpack _); vm_compute; exact I
    |apply (bool_decide_unpack _); vm_compute; exact I
    |reflexivity|reflexivity].
Defined.

Lemma last_save_wins_witness :
  exists w',
    (save small_learner "model" ∅ ;;
     save two_output_learner "model" ∅ ;;
     load PytorchApacheTVMInferenceLearner "model") small_world
    = (Ok {| cls := PytorchApacheTVMInferenceLearner;
             network_parameters :=
               {| batch_size := 2; output_sizes := [[10]; [3]] |};
             graph_executor_module := 1;
             input_names := ["x"; "y"];
             lib := (100 : @Module sum_tvm);
             target := "llvm" |}, w').
Proof.
  exact (last_save_wins (tvm := sum_tvm) PytorchApacheTVMInferenceLearner
           small_learner two_output_learner "model"
           (("llvm", 0) : @Device sum_tvm) fresh_executor small_world
           eq_refl eq_refl).
Defined.

Lemma load_succeeds_only_if_witness :
  exists md params names target_device l dev g,
    metadata_files (stored_world (Some (LearnerMetadata_from_model
                                          small_learner ["x"; "y"] "llvm" ∅))
                                 (Some 100))
      !! "model" = Some md
    /\ md_network_parameters md = Some params
    /\ md_input_names md = Some names
    /\ md_target md = Some target_device
    /\ libraries (stored_world (Some (LearnerMetadata_from_model
                                        small_learner ["x"; "y"] "llvm" ∅))
                               (Some 100))
         !! path_join "model" (TVM_FILENAMES_engine (TVM := sum_tvm))
       = Some l
    /\ tvm_device (TVM := sum_tvm) target_device 0 = Ok dev
    /\ tvm_graph_executor (TVM := sum_tvm) l dev = Ok g
    /\ small_learner
       = {| cls := PytorchApacheTVMInferenceLearner;
            network_parameters := params;
            graph_executor_module := 0;
            input_names := names;
            lib := l;
            target := target_device |}
    /\ [fresh_executor] = [] ++ [g].
Proof.
  exact (load_succeeds_only_if (tvm := sum_tvm)
           PytorchApacheTVMInferenceLearner "model" small_learner
           (stored_world (Some (LearnerMetadata_from_model small_learner
                                  ["x"; "y"] "llvm" ∅)) (Some 100))
           (update_world [fresh_executor]
              [load_module_call "model/compiled_lib.so";
               tvm_device_call "llvm" 0;
               GraphModule_call (100 : @Module sum_tvm)
                 (("llvm", 0) : @Device sum_tvm)]
              (stored_world (Some (LearnerMetadata_from_model small_learner
                                     ["x"; "y"] "llvm" ∅)) (Some 100)))
           eq_refl).
Defined.

Lemma load_only_reads_witness :
  executors (load PytorchApacheTVMInferenceLearner "model" no_engine_world).2
  = executors no_engine_world.
Proof.
  destruct (load_only_reads (tvm := sum_tvm) PytorchApacheTVMInferenceLearner
              "model" no_engine_world) as (_ & _ & _ & Hfails).
  apply Hfails. intros self. vm_compute. discriminate.
Defined.

Lemma load_failure_order_witness :
  load PytorchApacheTVMInferenceLearner "model" (stored_world None (Some 100))
  = (Raise ArtifactNotFoundError, stored_world None (Some 100))
  /\ (load PytorchApacheTVMInferenceLearner "model"
        (stored_world (Some metadata_without_target) (Some 100))).1
     = Raise (KeyError "target")
  /\ (load PytorchApacheTVMInferenceLearner "model"
        (stored_world (Some metadata_without_input_names) (Some 100))).1
     = Raise (KeyError "input_names").
Proof.
  split; [|split].
  - destruct (load_failure_order (tvm := sum_tvm)
                PytorchApacheTVMInferenceLearner "model"
                (stored_world None (Some 100))) as (Hmissing & _).
    exact (Hmissing eq_refl).
  - destruct (load_failure_order (tvm := sum_tvm)
                PytorchApacheTVMInferenceLearner "model"
                (stored_world (Some metadata_without_target) (Some 100)))
      as (_ & Htarget & _).
    rewrite (Htarget metadata_without_target small_params
               (100 : @Module sum_tvm) eq_refl eq_refl eq_refl eq_refl).
    reflexivity.
  - destruct (load_failure_order (tvm := sum_tvm)
                PytorchApacheTVMInferenceLearner "model"
                (stored_world (Some metadata_without_input_names) (Some 100)))
      as (_ & _ & Hnames).
    rewrite (Hnames metadata_without_input_names small_params
               (100 : @Module sum_tvm) "llvm"
               eq_refl eq_refl eq_refl eq_refl eq_refl).
    reflexivity.
Defined.
